(** * AuthSwitcher: account rotation, failure tracking and fallback

    A shallow embedding of [src/auth/AuthSwitcher.js].

    The class keeps three fields of its own ([failureCount], [usageCount],
    [isSystemBusy]) and talks to three collaborators: [authSource] (the
    array [availableIndices]), [browserManager] (the property
    [currentAuthIndex] and the asynchronous methods [launchOrSwitchContext]
    and [switchAccount]) and [logger].  Methods are embedded in a state and
    exception monad over a [World] that holds the object's fields, the
    collaborators' state and what the method has emitted so far: log lines,
    messages handed to [sendErrorCallback], and one [Suspension] per
    [await], with the fields of the object as they stood at that moment.

    Numbers are [Z]; the counters never come near 2^53, where a JavaScript
    number stops counting. *)

From Stdlib Require Import ZArith List Ascii String Bool Lia DecimalString Permutation.
Import ListNotations.
Local Open Scope string_scope.
Local Open Scope list_scope.
Local Open Scope Z_scope.

Infix "+++" := String.append (right associativity, at level 60).

(** ** The JavaScript primitives the class uses *)

Module JS.

(** Template-literal rendering of an integer. *)
Definition string_of_Z (z : Z) : string :=
  NilZero.string_of_int (Z.to_int z).

(** [Array.prototype.join] on an array of integers. *)
Definition join (sep : string) (l : list Z) : string :=
  String.concat sep (map string_of_Z l).

(** [String.prototype.includes]. *)
Fixpoint includes (s sub : string) : bool :=
  if String.prefix sub s then true
  else match s with
       | EmptyString => false
       | String _ s' => includes s' sub
       end.

(** [Array.prototype.indexOf]: first position holding [x], or [-1]. *)
Fixpoint indexOfFrom (l : list Z) (x : Z) (k : Z) : Z :=
  match l with
  | [] => -1
  | y :: l' => if y =? x then k else indexOfFrom l' x (k + 1)
  end.

Definition indexOf (l : list Z) (x : Z) : Z := indexOfFrom l x 0.

(** [Array.prototype.includes]. *)
Definition arrayIncludes (l : list Z) (x : Z) : bool :=
  existsb (Z.eqb x) l.

Definition length (l : list Z) : Z := Z.of_nat (List.length l).

(** [l[k]].  Out of range JavaScript yields [undefined]; every read in
    this class is in range (see [indexOf_range] and [rem_range]), and the
    embedding yields [0] there. *)
Definition item (l : list Z) (k : Z) : Z := nth (Z.to_nat k) l 0.

(** Template-literal rendering of a value that is [null] or a number. *)
Definition nullable (v : option Z) : string :=
  match v with
  | None => "null"
  | Some z => string_of_Z z
  end.

(** Truthiness of a value that is either [null] or a number. *)
Definition truthy (v : option Z) : bool :=
  match v with
  | None => false
  | Some z => negb (z =? 0)
  end.

End JS.

(** ** Data *)

(** [this.config], read-only for the class. *)
Record Config := {
  failureThreshold : Z;
  immediateSwitchStatusCodes : list Z;
  switchOnUses : Z
}.

(** The [errorDetails] argument; only [status] is read. *)
Record ErrorDetails := { status : Z }.

(** A JavaScript [Error]; only [message] is ever read or written.  The
    browser manager rejects with such objects (section 6 of the
    specification: failure(message)). *)
Record Error := { message : string }.

Inductive Level := INFO | WARN | ERROR.

(** The object literals the switching methods return; an absent property
    is [None]. *)
Record SwitchResult := {
  success : bool;
  newIndex : option Z;
  failedAccounts : option (list Z);
  finalAttempt : option bool;
  reason : option string
}.

(** The two asynchronous methods of [browserManager]. *)
Inductive Activation :=
| LaunchOrSwitchContext (index : Z)
| SwitchAccount (index : Z).

(** How the awaited promise settled: [None] resolved, [Some e] rejected. *)
Definition Outcome := option Error.

(** The fields the class owns. *)
Record Fields := {
  failureCount : Z;
  usageCount : Z;
  isSystemBusy : bool
}.

(** One [await]: the call, the object's fields while the caller is
    suspended (what any other caller sees meanwhile), and the outcome. *)
Record Suspension := {
  call : Activation;
  meanwhile : Fields;
  settled : Outcome
}.

Definition target (a : Activation) : Z :=
  match a with
  | LaunchOrSwitchContext i => i
  | SwitchAccount i => i
  end.

Inductive Completion (R : Type) :=
| Normal (r : R)
| Thrown (e : Error).
Arguments Normal {R} r.
Arguments Thrown {R} e.

Section Machine.

(** Whatever the browser manager keeps besides [currentAuthIndex]. *)
Variable Session : Type.

Record BrowserManager := {
  currentAuthIndex : Z;
  session : Session
}.

(** The behaviour of [launchOrSwitchContext] and [switchAccount]: any
    function of the call and the manager's state. *)
Variable perform : Activation -> BrowserManager -> Outcome * BrowserManager.

Variable config : Config.

Record World := {
  this : Fields;
  browserManager : BrowserManager;
  availableIndices : list Z;          (* authSource.availableIndices *)
  logged : list (Level * string);     (* logger.info / warn / error *)
  sent : list string;                 (* sendErrorCallback(...) *)
  awaits : list Suspension
}.

Definition with_this (f : Fields -> Fields) (w : World) : World :=
  {| this := f (this w); browserManager := browserManager w;
     availableIndices := availableIndices w; logged := logged w;
     sent := sent w; awaits := awaits w |}.

Definition with_browserManager (b : BrowserManager) (w : World) : World :=
  {| this := this w; browserManager := b;
     availableIndices := availableIndices w; logged := logged w;
     sent := sent w; awaits := awaits w |}.

Definition with_logged (l : list (Level * string)) (w : World) : World :=
  {| this := this w; browserManager := browserManager w;
     availableIndices := availableIndices w; logged := l;
     sent := sent w; awaits := awaits w |}.

Definition with_sent (l : list string) (w : World) : World :=
  {| this := this w; browserManager := browserManager w;
     availableIndices := availableIndices w; logged := logged w;
     sent := l; awaits := awaits w |}.

Definition with_awaits (l : list Suspension) (w : World) : World :=
  {| this := this w; browserManager := browserManager w;
     availableIndices := availableIndices w; logged := logged w;
     sent := sent w; awaits := l |}.

(** *** The monad *)

Definition M (R : Type) : Type := World -> Completion R * World.

Definition ret {R} (r : R) : M R := fun w => (Normal r, w).

Definition throw {R} (e : Error) : M R := fun w => (Thrown e, w).

Definition bind {A B} (m : M A) (k : A -> M B) : M B :=
  fun w =>
    match m w with
    | (Normal a, w') => k a w'
    | (Thrown e, w') => (Thrown e, w')
    end.

(** [try { body } catch (error) { handler }] *)
Definition try_catch {R} (body : M R) (handler : Error -> M R) : M R :=
  fun w =>
    match body w with
    | (Normal r, w') => (Normal r, w')
    | (Thrown e, w') => handler e w'
    end.

(** [try { body } finally { cleanup }]: the cleanup runs on every exit;
    the body's completion stands unless the cleanup itself throws. *)
Definition try_finally {R} (body : M R) (cleanup : M unit) : M R :=
  fun w =>
    match body w with
    | (c, w') =>
        match cleanup w' with
        | (Normal _, w'') => (c, w'')
        | (Thrown e, w'') => (Thrown e, w'')
        end
    end.

Definition gets {R} (f : World -> R) : M R := fun w => (Normal (f w), w).

Definition modify (f : World -> World) : M unit := fun w => (Normal tt, f w).

Notation "x <- m ;; k" := (bind m (fun x => k))
  (at level 61, m at next level, right associativity).
Notation "m ;; k" := (bind m (fun _ => k))
  (at level 61, right associativity).

(** *** Collaborators *)

Definition logger (lvl : Level) (msg : string) : M unit :=
  modify (fun w => with_logged (logged w ++ [(lvl, msg)]) w).

(** [if (sendErrorCallback) sendErrorCallback(msg)]; the callback is a
    notification sink, [false] when the caller passed none. *)
Definition notify (sendErrorCallback : bool) (msg : string) : M unit :=
  if sendErrorCallback
  then modify (fun w => with_sent (sent w ++ [msg]) w)
  else ret tt.

(** [await this.browserManager.<method>(index)].  The caller is suspended
    with its fields as they are; the manager does what it does; a
    rejection is thrown at the [await]. *)
Definition await (a : Activation) : M unit :=
  fun w =>
    match perform a (browserManager w) with
    | (o, b') =>
        let w' := with_awaits
                    (awaits w ++ [{| call := a; meanwhile := this w; settled := o |}])
                    (with_browserManager b' w) in
        match o with
        | None => (Normal tt, w')
        | Some e => (Thrown e, w')
        end
    end.

(** [get currentAuthIndex()] and [set currentAuthIndex(value)]. *)
Definition getCurrentAuthIndex : M Z :=
  gets (fun w => currentAuthIndex (browserManager w)).

Definition setCurrentAuthIndex (value : Z) : M unit :=
  modify (fun w =>
    with_browserManager
      {| currentAuthIndex := value; session := session (browserManager w) |} w).

Definition setBusy (b : bool) : M unit :=
  modify (with_this (fun f =>
    {| failureCount := failureCount f; usageCount := usageCount f;
       isSystemBusy := b |})).

Definition setFailureCount (n : Z) : M unit :=
  modify (with_this (fun f =>
    {| failureCount := n; usageCount := usageCount f;
       isSystemBusy := isSystemBusy f |})).

Definition setUsageCount (n : Z) : M unit :=
  modify (with_this (fun f =>
    {| failureCount := failureCount f; usageCount := n;
       isSystemBusy := isSystemBusy f |})).

(** [for (let i = from; i < from + n; i++) body], where the body either
    returns from the enclosing function ([inl]) or falls through to the
    next round with the loop's mutable data ([inr]). *)
Fixpoint forLoop {R S} (n : nat) (i : Z) (body : Z -> S -> M (R + S)) (acc : S)
  : M (R + S) :=
  match n with
  | O => ret (inr acc)
  | Datatypes.S n' =>
      r <- body i acc ;;
      match r with
      | inl v => ret (inl v)
      | inr acc' => forLoop n' (i + 1) body acc'
      end
  end.

(** *** The methods *)

Definition resetCounters : M unit :=
  setFailureCount 0 ;;
  setUsageCount 0.

Definition getNextAuthIndex : M (option Z) :=
  available <- gets availableIndices ;;
  if JS.length available =? 0 then ret None
  else
    current <- getCurrentAuthIndex ;;
    let currentIndexInArray := JS.indexOf available current in
    if currentIndexInArray =? -1 then
      logger WARN ("[Auth] Current index " +++ JS.string_of_Z current +++
                   " not in available list, switching to first available index.") ;;
      ret (Some (JS.item available 0))
    else
      let nextIndexInArray :=
        Z.rem (currentIndexInArray + 1) (JS.length available) in
      ret (Some (JS.item available nextIndexInArray)).

Definition rule : string := "==================================================".

(** The single-account branch of [switchToNextAuth] (lines 65-86). *)
Definition singleAccountMode (available : list Z) : M SwitchResult :=
  let singleIndex := JS.item available 0 in
  logger INFO rule ;;
  logger INFO "🔄 [Auth] Single account mode: Rotation threshold reached, performing in-place restart..." ;;
  logger INFO ("   • Target account: #" +++ JS.string_of_Z singleIndex) ;;
  logger INFO rule ;;
  try_catch
    (await (LaunchOrSwitchContext singleIndex) ;;
     resetCounters ;;
     logger INFO ("✅ [Auth] Single account #" +++ JS.string_of_Z singleIndex +++
                  " restart/refresh successful, usage count reset.") ;;
     ret {| success := true; newIndex := Some singleIndex;
            failedAccounts := None; finalAttempt := None; reason := None |})
    (fun error =>
       logger ERROR ("❌ [Auth] Single account restart failed: " +++ message error) ;;
       throw error).

(** One round of the loop of [switchToNextAuth] (lines 112-138). *)
Definition tryAccount (available : list Z) (startIndex startOffset tryCount : Z)
           (i : Z) (failed : list Z) : M (SwitchResult + list Z) :=
  let tryIndex := Z.rem (startIndex + i) (JS.length available) in
  let accountIndex := JS.item available tryIndex in
  let attemptNumber := i - startOffset + 1 in
  logger INFO ("🔄 [Auth] Attempting to switch to account #" +++
               JS.string_of_Z accountIndex +++ " (" +++
               JS.string_of_Z attemptNumber +++ "/" +++
               JS.string_of_Z tryCount +++ " accounts)...") ;;
  try_catch
    (await (SwitchAccount accountIndex) ;;
     resetCounters ;;
     (if JS.length failed >? 0 then
        logger INFO ("✅ [Auth] Successfully switched to account #" +++
                     JS.string_of_Z accountIndex +++
                     " after skipping failed accounts: [" +++
                     JS.join ", " failed +++ "]")
      else
        logger INFO ("✅ [Auth] Successfully switched to account #" +++
                     JS.string_of_Z accountIndex +++ ", counters reset.")) ;;
     ret (inl {| success := true; newIndex := Some accountIndex;
                 failedAccounts := Some failed; finalAttempt := None;
                 reason := None |}))
    (fun error =>
       logger ERROR ("❌ [Auth] Account #" +++ JS.string_of_Z accountIndex +++
                     " failed: " +++ message error) ;;
       ret (inr (failed ++ [accountIndex]))).

(** The final attempt with the original account (lines 143-168). *)
Definition finalFallback (hasCurrentAccount : bool) (originalStartAccount : option Z)
           (failed : list Z) : M (SwitchResult + list Z) :=
  if hasCurrentAccount && JS.truthy originalStartAccount then
    match originalStartAccount with
    | Some original =>
        logger WARN rule ;;
        logger WARN ("⚠️ [Auth] All other accounts failed. Making final attempt with original starting account #" +++
                     JS.string_of_Z original +++ "...") ;;
        logger WARN rule ;;
        try_catch
          (await (SwitchAccount original) ;;
           resetCounters ;;
           logger INFO ("✅ [Auth] Final attempt succeeded! Switched to account #" +++
                        JS.string_of_Z original +++ ".") ;;
           ret (inl {| success := true; newIndex := Some original;
                       failedAccounts := Some failed; finalAttempt := Some true;
                       reason := None |}))
          (fun finalError =>
             logger ERROR ("FATAL: ❌❌❌ [Auth] Final attempt with account #" +++
                           JS.string_of_Z original +++ " also failed!") ;;
             ret (inr (failed ++ [original])))
    | None => ret (inr failed)    (* [null] is not truthy *)
    end
  else ret (inr failed).

(** The multi-account branch of [switchToNextAuth] (lines 88-175). *)
Definition multiAccountMode (available : list Z) : M SwitchResult :=
  current <- getCurrentAuthIndex ;;
  let currentIndexInArray := JS.indexOf available current in
  let hasCurrentAccount := negb (currentIndexInArray =? -1) in
  let startIndex := if hasCurrentAccount then currentIndexInArray else 0 in
  let originalStartAccount :=
    if hasCurrentAccount then Some (JS.item available startIndex) else None in
  logger INFO rule ;;
  logger INFO "🔄 [Auth] Multi-account mode: Starting intelligent account switching" ;;
  logger INFO ("   • Current account: #" +++ JS.string_of_Z current) ;;
  logger INFO ("   • Available accounts: [" +++ JS.join ", " available +++ "]") ;;
  (if hasCurrentAccount then
     logger INFO ("   • Starting from: #" +++ JS.nullable originalStartAccount)
   else
     logger INFO "   • No current account, will try all available accounts") ;;
  logger INFO rule ;;
  let startOffset := if hasCurrentAccount then 1 else 0 in
  let tryCount :=
    if hasCurrentAccount then JS.length available - 1 else JS.length available in
  r <- forLoop (Z.to_nat tryCount) startOffset
         (tryAccount available startIndex startOffset tryCount) [] ;;
  match r with
  | inl result => ret result
  | inr failed =>
      r' <- finalFallback hasCurrentAccount originalStartAccount failed ;;
      match r' with
      | inl result => ret result
      | inr failed' =>
          logger ERROR ("FATAL: All " +++ JS.string_of_Z (JS.length available) +++
                        " accounts failed! Failed accounts: [" +++
                        JS.join ", " failed' +++ "]") ;;
          setCurrentAuthIndex 0 ;;
          throw {| message := "All " +++ JS.string_of_Z (JS.length available) +++
                              " available accounts failed to initialize (including final retry)." |}
      end
  end.

Definition skipped : SwitchResult :=
  {| success := false; newIndex := None; failedAccounts := None;
     finalAttempt := None; reason := Some "Switch already in progress." |}.

Definition switchToNextAuth : M SwitchResult :=
  available <- gets availableIndices ;;
  if JS.length available =? 0 then
    throw {| message := "No available authentication sources, cannot switch." |}
  else
    busy <- gets (fun w => isSystemBusy (this w)) ;;
    if busy then
      logger INFO "🔄 [Auth] Account switching/restarting in progress, skipping duplicate operation" ;;
      ret skipped
    else
      setBusy true ;;
      try_finally
        (if JS.length available =? 1 then singleAccountMode available
         else multiAccountMode available)
        (setBusy false).

Definition switchToSpecificAuth (targetIndex : Z) : M SwitchResult :=
  busy <- gets (fun w => isSystemBusy (this w)) ;;
  if busy then
    logger INFO "🔄 [Auth] Account switching in progress, skipping duplicate operation" ;;
    ret skipped
  else
    available <- gets availableIndices ;;
    if negb (JS.arrayIncludes available targetIndex) then
      ret {| success := false; newIndex := None; failedAccounts := None;
             finalAttempt := None;
             reason := Some ("Switch failed: Account #" +++ JS.string_of_Z targetIndex +++
                             " invalid or does not exist.") |}
    else
      setBusy true ;;
      try_finally
        (try_catch
           (logger INFO ("🔄 [Auth] Starting switch to specified account #" +++
                         JS.string_of_Z targetIndex +++ "...") ;;
            await (SwitchAccount targetIndex) ;;
            resetCounters ;;
            logger INFO ("✅ [Auth] Successfully switched to account #" +++
                         JS.string_of_Z targetIndex +++ ", counters reset.") ;;
            ret {| success := true; newIndex := Some targetIndex;
                   failedAccounts := None; finalAttempt := None; reason := None |})
           (fun error =>
              logger ERROR ("❌ [Auth] Switch to specified account #" +++
                            JS.string_of_Z targetIndex +++ " failed: " +++ message error) ;;
              throw error))
        (setBusy false).

(** [`${result.reason}`] *)
Definition reasonText (r : SwitchResult) : string :=
  match reason r with
  | Some s => s
  | None => "undefined"
  end.

(** The [catch] block of [handleRequestFailureAndSwitch] (lines 247-262). *)
Definition switchFailed (sendErrorCallback : bool) (error : Error) : M unit :=
  userMessage <-
    (if JS.includes (message error) "Only one account is available" then
       logger INFO "[Auth] Only one account available, failure count reset." ;;
       setFailureCount 0 ;;
       ret "❌ Switch failed: Only one account available."
     else if JS.includes (message error) "Fallback failed reason" then
       ret "❌ Fatal error: Both automatic switching and emergency fallback failed, service may be interrupted, please check logs!"
     else if JS.includes (message error) "Switching to account" then
       current <- getCurrentAuthIndex ;;
       ret ("⚠️ Automatic switch failed: Automatically fell back to account #" +++
            JS.string_of_Z current +++ ", please check if target account has issues.")
     else
       ret ("❌ Fatal error: Unknown switching error occurred: " +++ message error)) ;;
  logger ERROR ("[Auth] Background account switching task failed: " +++ message error) ;;
  notify sendErrorCallback userMessage.

(** Lines 237-246 of [handleRequestFailureAndSwitch]: what is done with
    the result of [switchToNextAuth]. *)
Definition reportResult (sendErrorCallback : bool) (result : SwitchResult) : M unit :=
  if negb (success result) then
    logger WARN ("⚠️ [Auth] Account switch skipped: " +++ reasonText result) ;;
    notify sendErrorCallback ("⚠️ Account switch skipped: " +++ reasonText result)
  else
    current <- getCurrentAuthIndex ;;
    let successMessage :=
      "🔄 Target account invalid, automatically fell back to account #" +++
      JS.string_of_Z current +++ "." in
    logger INFO ("[Auth] " +++ successMessage) ;;
    notify sendErrorCallback successMessage.

(** The [try] block of [handleRequestFailureAndSwitch] (lines 236-246). *)
Definition switchAndReport (sendErrorCallback : bool) : M unit :=
  result <- switchToNextAuth ;;
  reportResult sendErrorCallback result.

(** Lines 209-233 of [handleRequestFailureAndSwitch]: count the failure,
    log it and decide whether to switch. *)
Definition recordFailure (errorDetails : ErrorDetails) : M bool :=
  count <- gets (fun w => failureCount (this w)) ;;
  setFailureCount (count + 1) ;;
  count <- gets (fun w => failureCount (this w)) ;;
  current <- getCurrentAuthIndex ;;
  (if failureThreshold config >? 0 then
     logger WARN ("⚠️ [Auth] Request failed - failure count: " +++ JS.string_of_Z count +++
                  "/" +++ JS.string_of_Z (failureThreshold config) +++
                  " (Current account index: " +++ JS.string_of_Z current +++ ")")
   else
     logger WARN ("⚠️ [Auth] Request failed - failure count: " +++ JS.string_of_Z count +++
                  " (Current account index: " +++ JS.string_of_Z current +++ ")")) ;;
  let isImmediateSwitch :=
    JS.arrayIncludes (immediateSwitchStatusCodes config) (status errorDetails) in
  let isThresholdReached :=
    (failureThreshold config >? 0) && (count >=? failureThreshold config) in
  if isImmediateSwitch || isThresholdReached then
    (if isImmediateSwitch then
       logger WARN ("🔴 [Auth] Received status code " +++
                    JS.string_of_Z (status errorDetails) +++
                    ", triggering immediate account switch...")
     else
       logger WARN ("🔴 [Auth] Failure threshold reached (" +++ JS.string_of_Z count +++
                    "/" +++ JS.string_of_Z (failureThreshold config) +++
                    ")! Preparing to switch account...")) ;;
    ret true
  else ret false.

Definition handleRequestFailureAndSwitch (errorDetails : ErrorDetails)
           (sendErrorCallback : bool) : M unit :=
  switch <- recordFailure errorDetails ;;
  if switch then
    try_catch (switchAndReport sendErrorCallback) (switchFailed sendErrorCallback)
  else ret tt.

Definition incrementUsageCount : M Z :=
  count <- gets (fun w => usageCount (this w)) ;;
  setUsageCount (count + 1) ;;
  gets (fun w => usageCount (this w)).

Definition shouldSwitchByUsage : M bool :=
  gets (fun w => (switchOnUses config >? 0)
                 && (usageCount (this w) >=? switchOnUses config)).

End Machine.

Arguments currentAuthIndex {Session} b.
Arguments session {Session} b.
Arguments this {Session} w.
Arguments browserManager {Session} w.
Arguments availableIndices {Session} w.
Arguments logged {Session} w.
Arguments sent {Session} w.
Arguments awaits {Session} w.
Arguments with_this {Session} f w.
Arguments with_browserManager {Session} b w.
Arguments with_logged {Session} l w.
Arguments with_sent {Session} l w.
Arguments with_awaits {Session} l w.
Arguments ret {Session R} r w.
Arguments throw {Session R} e w.
Arguments bind {Session A B} m k w.
Arguments try_catch {Session R} body handler w.
Arguments try_finally {Session R} body cleanup w.
Arguments gets {Session R} f w.
Arguments modify {Session} f w.
Arguments logger {Session} lvl msg w.
Arguments notify {Session} sendErrorCallback msg w.
Arguments await {Session} perform a w.
Arguments getCurrentAuthIndex {Session} w.
Arguments setCurrentAuthIndex {Session} value w.
Arguments setBusy {Session} b w.
Arguments setFailureCount {Session} n w.
Arguments setUsageCount {Session} n w.
Arguments forLoop {Session R S} n i body acc w.
Arguments resetCounters {Session} w.
Arguments getNextAuthIndex {Session} w.
Arguments singleAccountMode {Session} perform available w.
Arguments tryAccount {Session} perform available startIndex startOffset tryCount i failed w.
Arguments finalFallback {Session} perform hasCurrentAccount originalStartAccount failed w.
Arguments multiAccountMode {Session} perform available w.
Arguments switchToNextAuth {Session} perform w.
Arguments switchToSpecificAuth {Session} perform targetIndex w.
Arguments switchFailed {Session} sendErrorCallback error w.
Arguments reportResult {Session} sendErrorCallback result w.
Arguments switchAndReport {Session} perform sendErrorCallback w.
Arguments recordFailure {Session} config errorDetails w.
Arguments handleRequestFailureAndSwitch {Session} perform config errorDetails sendErrorCallback w.
Arguments incrementUsageCount {Session} w.
Arguments shouldSwitchByUsage {Session} config w.

(** ** The specification's vocabulary *)

(** Section 4.2, step 2, in the specification's words: walk forward from
    position [p], wrapping around, and skip the candidate at [p]. *)
Definition othersFrom (available : list Z) (p : nat) : list Z :=
  skipn (S p) available ++ firstn p available.

(** The accounts the loop of [switchToNextAuth] visits: rounds
    [i = from, from + 1, ...], [n] of them, each reading
    [available[(startIndex + i) % available.length]]. *)
Fixpoint visited (available : list Z) (startIndex : Z) (n : nat) (i : Z) : list Z :=
  match n with
  | O => []
  | S n' =>
      JS.item available (Z.rem (startIndex + i) (JS.length available))
      :: visited available startIndex n' (i + 1)
  end.

Definition noSources : Error :=
  {| message := "No available authentication sources, cannot switch." |}.

(** The counters after [resetCounters]. *)
Definition cleared (f : Fields) : Fields :=
  {| failureCount := 0; usageCount := 0; isSystemBusy := isSystemBusy f |}.

Definition rejected (s : Suspension) : bool :=
  match settled s with
  | Some _ => true
  | None => false
  end.

(** The accounts a list of suspensions tried to activate. *)
Definition attempted (l : list Suspension) : list Z := map target (map call l).

Section Attempts.

Context {Session : Type}.
Variable perform : Activation -> BrowserManager Session -> Outcome * BrowserManager Session.

(** Section 4.2, step 3, in the specification's words: attempt the
    candidates strictly in sequence; the first success ends the walk,
    each failure is recorded and the walk goes on.  Yields the failures
    in order, the winner if any, and the manager's state afterwards. *)
Fixpoint attemptInSequence (candidates : list Z) (b : BrowserManager Session)
  : list (Z * Error) * option Z * BrowserManager Session :=
  match candidates with
  | [] => ([], None, b)
  | c :: rest =>
      match perform (SwitchAccount c) b with
      | (None, b') => ([], Some c, b')
      | (Some e, b') =>
          match attemptInSequence rest b' with
          | (failures, winner, b'') => ((c, e) :: failures, winner, b'')
          end
      end
  end.

End Attempts.

(** The candidates of the final attempt (line 143): the original account,
    when there is one and it is truthy. *)
Definition finalCandidates (hasCurrentAccount : bool) (originalStartAccount : option Z)
  : list Z :=
  if hasCurrentAccount && JS.truthy originalStartAccount then
    match originalStartAccount with
    | Some original => [original]
    | None => []
    end
  else [].

(** The accounts the loop of the multi-account branch visits, from the
    variables of lines 89-109. *)
Definition loopCandidates (available : list Z) (current : Z) : list Z :=
  let currentIndexInArray := JS.indexOf available current in
  let hasCurrentAccount := negb (currentIndexInArray =? -1) in
  let startIndex := if hasCurrentAccount then currentIndexInArray else 0 in
  let startOffset := if hasCurrentAccount then 1 else 0 in
  let tryCount :=
    if hasCurrentAccount then JS.length available - 1 else JS.length available in
  visited available startIndex (Z.to_nat tryCount) startOffset.

(** The accounts of the final attempt, from the variables of lines 89-92
    and the test of line 143. *)
Definition lastCandidates (available : list Z) (current : Z) : list Z :=
  let currentIndexInArray := JS.indexOf available current in
  let hasCurrentAccount := negb (currentIndexInArray =? -1) in
  let startIndex := if hasCurrentAccount then currentIndexInArray else 0 in
  finalCandidates hasCurrentAccount
    (if hasCurrentAccount then Some (JS.item available startIndex) else None).

(** The fields while a switch is under way. *)
Definition busy (f : Fields) : Fields :=
  {| failureCount := failureCount f; usageCount := usageCount f; isSystemBusy := true |}.

Definition idle (f : Fields) : Fields :=
  {| failureCount := failureCount f; usageCount := usageCount f; isSystemBusy := false |}.

Definition allFailedError (available : list Z) : Error :=
  {| message := "All " +++ JS.string_of_Z (JS.length available) +++
                " available accounts failed to initialize (including final retry)." |}.

Definition allFailedLine (available failed : list Z) : Level * string :=
  (ERROR, "FATAL: All " +++ JS.string_of_Z (JS.length available) +++
          " accounts failed! Failed accounts: [" +++ JS.join ", " failed +++ "]").

(** The suspensions such a walk leaves behind, all with the fields [f]. *)
Definition walkAwaits (f : Fields) (failures : list (Z * Error)) (winner : option Z)
  : list Suspension :=
  map (fun ce => {| call := SwitchAccount (fst ce); meanwhile := f;
                    settled := Some (snd ce) |}) failures
  ++ match winner with
     | Some c => [{| call := SwitchAccount c; meanwhile := f; settled := None |}]
     | None => []
     end.

(** The decision of lines 220-224 for a failure reported when the count
    of earlier failures is [count]. *)
Definition shouldSwitch (config : Config) (errorDetails : ErrorDetails) (count : Z) : bool :=
  JS.arrayIncludes (immediateSwitchStatusCodes config) (status errorDetails)
  || ((failureThreshold config >? 0) && (count + 1 >=? failureThreshold config)).

(** The fields once one more failure is counted. *)
Definition counted (f : Fields) : Fields :=
  {| failureCount := failureCount f + 1; usageCount := usageCount f;
     isSystemBusy := isSystemBusy f |}.

Definition invalidTarget (targetIndex : Z) : SwitchResult :=
  {| success := false; newIndex := None; failedAccounts := None; finalAttempt := None;
     reason := Some ("Switch failed: Account #" +++ JS.string_of_Z targetIndex +++
                     " invalid or does not exist.") |}.

(** The text line 250 looks for in the message of a caught error. *)
Definition onlyOne : string := "Only one account is available".

(** The fields after line 253. *)
Definition forgiven (f : Fields) : Fields :=
  {| failureCount := 0; usageCount := usageCount f; isSystemBusy := isSystemBusy f |}.

(** Section 4.2, steps 3 to 5, as a property of one run of
    [switchToNextAuth] over the trial order [schedule].  The activations of
    the run are [switchAccount] calls on the schedule, one after the other
    from its head.  Either all but the last are rejected, the last one
    resolves, and the method returns that account with the accounts
    rejected before it, flagged as the final attempt when it is the last of
    the schedule; or every account of the schedule is tried and rejected
    and the method throws. *)
Definition walksThrough {Session : Type}
           (perform : Activation -> BrowserManager Session -> Outcome * BrowserManager Session)
           (schedule : list Z) (w : World Session) : Prop :=
  let c := fst (switchToNextAuth perform w) in
  let w' := snd (switchToNextAuth perform w) in
  exists new : list Suspension,
    awaits w' = awaits w ++ new /\
    ((exists (failed : list Z) (winner : Z) (rest : list Z),
         schedule = failed ++ winner :: rest /\
         map call new = map SwitchAccount (failed ++ [winner]) /\
         map rejected new = repeat true (List.length failed) ++ [false] /\
         c = Normal {| success := true; newIndex := Some winner;
                       failedAccounts := Some failed;
                       finalAttempt := match rest with
                                       | [] => Some true
                                       | _ :: _ => None
                                       end;
                       reason := None |})
     \/
     (map call new = map SwitchAccount schedule /\
      map rejected new = repeat true (List.length schedule) /\
      exists e, c = Thrown e)).

(** The skip of the busy guard: the operation returns the
    "Switch already in progress." result at once; it awaits nothing and
    leaves the fields, the manager, the candidates and the notifications as
    they were. *)
Definition skipsWithoutEffect {Session : Type} (operation : M Session SwitchResult)
           (w : World Session) : Prop :=
  fst (operation w) =
    Normal {| success := false; newIndex := None; failedAccounts := None;
              finalAttempt := None; reason := Some "Switch already in progress." |} /\
  this (snd (operation w)) = this w /\
  browserManager (snd (operation w)) = browserManager w /\
  availableIndices (snd (operation w)) = availableIndices w /\
  sent (snd (operation w)) = sent w /\
  awaits (snd (operation w)) = awaits w.

(** The busy guard held by one operation: [isSystemBusy] is true at each of its
    suspensions and false when it completes, normally or not. *)
Definition heldThroughout {Session : Type} (operation : M Session SwitchResult)
           (w : World Session) : Prop :=
  isSystemBusy (this (snd (operation w))) = false /\
  exists new : list Suspension,
    awaits (snd (operation w)) = awaits w ++ new /\
    Forall (fun s => isSystemBusy (meanwhile s) = true) new.

(** Failures reported one after the other, each with its own callback. *)
Fixpoint reportAll {Session : Type}
         (perform : Activation -> BrowserManager Session -> Outcome * BrowserManager Session)
         (config : Config) (reports : list (ErrorDetails * bool)) (w : World Session)
  : World Session :=
  match reports with
  | [] => w
  | (errorDetails, sendErrorCallback) :: rest =>
      reportAll perform config rest
        (snd (handleRequestFailureAndSwitch perform config errorDetails sendErrorCallback w))
  end.

(** Both counters are [0] after a switch that returns success, and both
    are what they were after one that does not: a skip, an invalid target,
    or an error. *)
Definition countersFollowSuccess {Session : Type} (operation : M Session SwitchResult)
           (w : World Session) : Prop :=
  let w' := snd (operation w) in
  match fst (operation w) with
  | Normal result =>
      if success result
      then failureCount (this w') = 0 /\ usageCount (this w') = 0
      else failureCount (this w') = failureCount (this w) /\
           usageCount (this w') = usageCount (this w)
  | Thrown _ =>
      failureCount (this w') = failureCount (this w) /\
      usageCount (this w') = usageCount (this w)
  end.

(** Whether the switch a report runs, if it runs one, returns success. *)
Definition reportSwitches {Session : Type}
           (perform : Activation -> BrowserManager Session -> Outcome * BrowserManager Session)
           (config : Config) (errorDetails : ErrorDetails) (w : World Session) : bool :=
  shouldSwitch config errorDetails (failureCount (this w))
  && match fst (switchToNextAuth perform (snd (recordFailure config errorDetails w))) with
     | Normal result => success result
     | Thrown _ => false
     end.




(** ** Concrete collaborators *)

(** A browser manager without hidden state: activating an account listed in
    [bad] is rejected with [msg], any other activation makes that account
    the current one. *)
Definition flaky (bad : list Z) (msg : string)
  : Activation -> BrowserManager unit -> Outcome * BrowserManager unit :=
  fun a b =>
    if JS.arrayIncludes bad (target a) then (Some {| message := msg |}, b)
    else (None, {| currentAuthIndex := target a; session := tt |}).

Definition start (failures uses : Z) (busy : bool) (current : Z) (available : list Z)
  : World unit :=
  {| this := {| failureCount := failures; usageCount := uses; isSystemBusy := busy |};
     browserManager := {| currentAuthIndex := current; session := tt |};
     availableIndices := available; logged := []; sent := []; awaits := [] |}.

Definition policy (threshold : Z) (immediate : list Z) : Config :=
  {| failureThreshold := threshold; immediateSwitchStatusCodes := immediate;
     switchOnUses := 0 |}.

(** ** The rest of the class *)

(** [constructor] (lines 14-22): both counters at [0], no switch under
    way; the collaborators are the ones given. *)
Definition constructor {Session : Type} (manager : BrowserManager Session)
           (available : list Z) : World Session :=
  {| this := {| failureCount := 0; usageCount := 0; isSystemBusy := false |};
     browserManager := manager; availableIndices := available;
     logged := []; sent := []; awaits := [] |}.

(** [n] calls of [incrementUsageCount], one after the other. *)
Fixpoint useTimes {Session : Type} (n : nat) (w : World Session) : World Session :=
  match n with
  | O => w
  | S n' => useTimes n' (snd (incrementUsageCount w))
  end.

(** A run of [switchToNextAuth] that tries [schedule] from its head with
    [switchAccount], without a final attempt: it returns the first account
    that resolves, with the accounts rejected before it and no
    [finalAttempt] flag; or every account is rejected, the current index
    is set to [0] and the method throws [allFailedError]. *)
Definition triesInOrder {Session : Type}
           (perform : Activation -> BrowserManager Session -> Outcome * BrowserManager Session)
           (schedule : list Z) (w : World Session) : Prop :=
  let c := fst (switchToNextAuth perform w) in
  let w' := snd (switchToNextAuth perform w) in
  exists new : list Suspension,
    awaits w' = awaits w ++ new /\
    ((exists (failed : list Z) (winner : Z) (rest : list Z),
         schedule = failed ++ winner :: rest /\
         map call new = map SwitchAccount (failed ++ [winner]) /\
         map rejected new = repeat true (List.length failed) ++ [false] /\
         c = Normal {| success := true; newIndex := Some winner;
                       failedAccounts := Some failed; finalAttempt := None;
                       reason := None |})
     \/
     (map call new = map SwitchAccount schedule /\
      map rejected new = repeat true (List.length schedule) /\
      c = Thrown (allFailedError (availableIndices w)) /\
      currentAuthIndex (browserManager w') = 0)).


(** ** The caller's callback *)

(** [sendErrorCallback] as a caller passes it: nothing ([None]) or a
    function.  A call of the function with a message, after the messages
    it was given before, returns ([None]) or throws ([Some e]); the
    function does not touch the switcher. *)
Definition Callback : Type := option (list string -> string -> option Error).

Definition returnsNormally (sendErrorCallback : Callback) : Prop :=
  match sendErrorCallback with
  | None => True
  | Some f => forall (earlier : list string) (msg : string), f earlier msg = None
  end.

(** The message of lines 240 and 244 for a result of [switchToNextAuth],
    with the current index as line 244 reads it. *)
Definition resultMessage (result : SwitchResult) (current : Z) : string :=
  if negb (success result) then
    "⚠️ Account switch skipped: " +++ match reason result with
                                      | Some text => text
                                      | None => "undefined"
                                      end
  else
    "🔄 Target account invalid, automatically fell back to account #" +++
    JS.string_of_Z current +++ ".".

(** The message lines 248-258 choose for a caught error, with the current
    index as line 257 reads it. *)
Definition userMessage (error : Error) (current : Z) : string :=
  if JS.includes (message error) onlyOne then
    "❌ Switch failed: Only one account available."
  else if JS.includes (message error) "Fallback failed reason" then
    "❌ Fatal error: Both automatic switching and emergency fallback failed, service may be interrupted, please check logs!"
  else if JS.includes (message error) "Switching to account" then
    "⚠️ Automatic switch failed: Automatically fell back to account #" +++
    JS.string_of_Z current +++ ", please check if target account has issues."
  else
    "❌ Fatal error: Unknown switching error occurred: " +++ message error.

(** [handleRequestFailureAndSwitch] with the callback as the caller's
    function: lines 208-264 again, where [sendErrorCallback(...)] is a call
    that may throw, inside the [try] at lines 240 and 246 and inside the
    [catch] at line 261. *)
Module Caller.

Section Report.

Context {Session : Type}.
Variable perform : Activation -> BrowserManager Session -> Outcome * BrowserManager Session.
Variable config : Config.

Local Notation "x <- m ;; k" := (bind m (fun x => k))
  (at level 61, m at next level, right associativity).
Local Notation "m ;; k" := (bind m (fun _ => k))
  (at level 61, right associativity).

(** [if (sendErrorCallback) sendErrorCallback(msg)] *)
Definition notify (sendErrorCallback : Callback) (msg : string) : M Session unit :=
  match sendErrorCallback with
  | None => ret tt
  | Some f =>
      fun w =>
        match f (sent w) msg with
        | None => (Normal tt, with_sent (sent w ++ [msg]) w)
        | Some e => (Thrown e, with_sent (sent w ++ [msg]) w)
        end
  end.

(** Lines 237-246. *)
Definition reportResult (sendErrorCallback : Callback) (result : SwitchResult)
  : M Session unit :=
  if negb (success result) then
    logger WARN ("⚠️ [Auth] Account switch skipped: " +++ reasonText result) ;;
    notify sendErrorCallback ("⚠️ Account switch skipped: " +++ reasonText result)
  else
    current <- getCurrentAuthIndex ;;
    let successMessage :=
      "🔄 Target account invalid, automatically fell back to account #" +++
      JS.string_of_Z current +++ "." in
    logger INFO ("[Auth] " +++ successMessage) ;;
    notify sendErrorCallback successMessage.

(** The [try] block, lines 236-246. *)
Definition switchAndReport (sendErrorCallback : Callback) : M Session unit :=
  result <- switchToNextAuth perform ;;
  reportResult sendErrorCallback result.

(** The [catch] block, lines 247-262. *)
Definition switchFailed (sendErrorCallback : Callback) (error : Error) : M Session unit :=
  userMessage <-
    (if JS.includes (message error) "Only one account is available" then
       logger INFO "[Auth] Only one account available, failure count reset." ;;
       setFailureCount 0 ;;
       ret "❌ Switch failed: Only one account available."
     else if JS.includes (message error) "Fallback failed reason" then
       ret "❌ Fatal error: Both automatic switching and emergency fallback failed, service may be interrupted, please check logs!"
     else if JS.includes (message error) "Switching to account" then
       current <- getCurrentAuthIndex ;;
       ret ("⚠️ Automatic switch failed: Automatically fell back to account #" +++
            JS.string_of_Z current +++ ", please check if target account has issues.")
     else
       ret ("❌ Fatal error: Unknown switching error occurred: " +++ message error)) ;;
  logger ERROR ("[Auth] Background account switching task failed: " +++ message error) ;;
  notify sendErrorCallback userMessage.

Definition handleRequestFailureAndSwitch (errorDetails : ErrorDetails)
           (sendErrorCallback : Callback) : M Session unit :=
  switch <- recordFailure config errorDetails ;;
  if switch then
    try_catch (switchAndReport sendErrorCallback) (switchFailed sendErrorCallback)
  else ret tt.

End Report.

End Caller.

(** Whether a callback was passed: the flag the methods of section
    [Machine] take for it. *)
Definition present (sendErrorCallback : Callback) : bool :=
  match sendErrorCallback with
  | None => false
  | Some _ => true
  end.

(** Symbolic execution of the monad's primitives. *)
Ltac run :=
  cbv beta iota zeta delta
    [bind ret throw try_catch try_finally gets modify logger notify await
     getCurrentAuthIndex setCurrentAuthIndex setBusy setFailureCount setUsageCount
     resetCounters with_this with_browserManager with_logged with_sent with_awaits
     this browserManager availableIndices logged sent awaits
     failureCount usageCount isSystemBusy currentAuthIndex session].


(** ** Arrays *)

Lemma indexOfFrom_first (l : list Z) (x k : Z) :
  (JS.indexOfFrom l x k = -1 /\ ~ In x l) \/
  (exists i : nat,
      JS.indexOfFrom l x k = k + Z.of_nat i /\
      nth_error l i = Some x /\
      forall j : nat, (j < i)%nat -> nth_error l j <> Some x).
Proof.
  revert k; induction l as [|y l IH]; intro k; simpl.
  - left; split; [reflexivity | tauto].
  - destruct (Z.eqb_spec y x) as [->|Hne].
    + right; exists 0%nat; repeat split.
      * lia.
      * intros j Hj; lia.
    + destruct (IH (k + 1)) as [[E N] | (i & E & Hi & Hmin)].
      * left; split; [exact E | intros [H|H]; [congruence | tauto]].
      * right; exists (S i); repeat split.
        -- rewrite E; lia.
        -- exact Hi.
        -- intros [|j] Hj; simpl; [congruence | apply Hmin; lia].
Qed.

Lemma indexOf_absent (l : list Z) (x : Z) :
  ~ In x l -> JS.indexOf l x = -1.
Proof.
  intro N; unfold JS.indexOf.
  destruct (indexOfFrom_first l x 0) as [[E _] | (i & _ & Hi & _)]; [exact E|].
  exfalso; apply N; eapply nth_error_In; exact Hi.
Qed.

Lemma indexOf_present (l : list Z) (x : Z) :
  In x l ->
  exists i : nat,
    JS.indexOf l x = Z.of_nat i /\ nth_error l i = Some x /\
    forall j : nat, (j < i)%nat -> nth_error l j <> Some x.
Proof.
  intro H; unfold JS.indexOf.
  destruct (indexOfFrom_first l x 0) as [[_ N] | (i & E & Hi & Hmin)]; [tauto|].
  exists i; repeat split; [rewrite E; lia | exact Hi | exact Hmin].
Qed.

(** In a list without repetition the position found is the position held. *)
Lemma indexOf_position (l : list Z) (x : Z) (p : nat) :
  NoDup l -> nth_error l p = Some x -> JS.indexOf l x = Z.of_nat p.
Proof.
  intros ND Hp.
  destruct (indexOf_present l x (nth_error_In _ _ Hp)) as (i & E & Hi & _).
  rewrite E; f_equal.
  apply (proj1 (NoDup_nth_error l) ND).
  - apply nth_error_Some; congruence.
  - congruence.
Qed.

Lemma indexOf_range (l : list Z) (x : Z) :
  JS.indexOf l x = -1 \/ 0 <= JS.indexOf l x < JS.length l.
Proof.
  unfold JS.indexOf, JS.length.
  destruct (indexOfFrom_first l x 0) as [[E _] | (i & E & Hi & _)]; [left; exact E|].
  right; rewrite E.
  assert (i < List.length l)%nat by (apply nth_error_Some; congruence); lia.
Qed.

Lemma rem_range (a n : Z) : 0 <= a -> 0 < n -> 0 <= Z.rem a n < n.
Proof. intros Ha Hn; rewrite Z.rem_mod_nonneg by lia; apply Z.mod_pos_bound; lia. Qed.

Lemma item_nth_error (l : list Z) (i : nat) (x : Z) :
  nth_error l i = Some x -> JS.item l (Z.of_nat i) = x.
Proof.
  intro H; unfold JS.item; rewrite Nat2Z.id.
  apply nth_error_nth; exact H.
Qed.

Lemma visited_length (available : list Z) (startIndex : Z) (n : nat) (i : Z) :
  List.length (visited available startIndex n i) = n.
Proof. revert i; induction n; intro i; simpl; [reflexivity | now rewrite IHn]. Qed.

Lemma visited_nth (available : list Z) (startIndex : Z) (n : nat) (i : Z) (k : nat) :
  (k < n)%nat ->
  nth k (visited available startIndex n i) 0 =
  JS.item available (Z.rem (startIndex + i + Z.of_nat k) (JS.length available)).
Proof.
  revert i k; induction n as [|n IH]; intros i k Hk; [lia|].
  destruct k as [|k]; simpl visited; cbn [nth].
  - now rewrite Z.add_0_r.
  - rewrite IH by lia. do 2 f_equal. lia.
Qed.

(** Rounds [1 .. n-1] from position [p] visit the other candidates in the
    order of [othersFrom]. *)
Lemma visited_others (available : list Z) (p : nat) :
  (p < List.length available)%nat ->
  visited available (Z.of_nat p) (List.length available - 1) 1 = othersFrom available p.
Proof.
  intro Hp. unfold othersFrom.
  apply (nth_ext _ _ 0 0).
  - rewrite visited_length, length_app, length_skipn, length_firstn. lia.
  - rewrite visited_length. intros k Hk.
    rewrite visited_nth by exact Hk.
    unfold JS.item, JS.length.
    destruct (Nat.lt_ge_cases (S p + k) (List.length available)) as [Hlt|Hge].
    + rewrite app_nth1 by (rewrite length_skipn; lia).
      rewrite nth_skipn.
      rewrite Z.rem_small by lia. f_equal. lia.
    + rewrite app_nth2 by (rewrite length_skipn; lia).
      rewrite length_skipn, nth_firstn.
      replace (k - (List.length available - S p) <? p)%nat with true
        by (symmetry; apply Nat.ltb_lt; lia).
      replace (Z.of_nat p + 1 + Z.of_nat k)
        with (Z.of_nat (k - (List.length available - S p)) + 1 * Z.of_nat (List.length available)) by lia.
      rewrite Z.rem_mod_nonneg by lia.
      rewrite Z.mod_add by lia.
      rewrite Z.mod_small by lia.
      now rewrite Nat2Z.id.
Qed.

(** Rounds [0 .. n-1] from position [0] visit every candidate in order. *)
Lemma visited_all (available : list Z) :
  visited available 0 (List.length available) 0 = available.
Proof.
  apply (nth_ext _ _ 0 0).
  - apply visited_length.
  - rewrite visited_length. intros k Hk.
    rewrite visited_nth by exact Hk.
    unfold JS.item, JS.length.
    rewrite Z.rem_small by lia. f_equal. lia.
Qed.

Lemma othersFrom_length (available : list Z) (p : nat) :
  (p < List.length available)%nat ->
  List.length (othersFrom available p) = (List.length available - 1)%nat.
Proof.
  intro Hp; unfold othersFrom.
  rewrite length_app, length_skipn, length_firstn; lia.
Qed.

(** [othersFrom] and the skipped candidate together are the candidate set. *)
Lemma othersFrom_split (available : list Z) (p : nat) (x : Z) :
  nth_error available p = Some x ->
  available = firstn p available ++ x :: skipn (S p) available.
Proof.
  revert p; induction available as [|y l IH]; intros [|p] H; simpl in *; try discriminate.
  - congruence.
  - f_equal; apply IH; exact H.
Qed.

Lemma othersFrom_complete (available : list Z) (p : nat) (x y : Z) :
  nth_error available p = Some x ->
  In y available -> y = x \/ In y (othersFrom available p).
Proof.
  intros Hp Hy. unfold othersFrom.
  rewrite (othersFrom_split available p x Hp) in Hy.
  apply in_app_or in Hy. rewrite in_app_iff.
  destruct Hy as [H|[H|H]]; auto.
Qed.

Lemma othersFrom_skips (available : list Z) (p : nat) (x : Z) :
  NoDup available -> nth_error available p = Some x ->
  ~ In x (othersFrom available p).
Proof.
  intros ND Hp. unfold othersFrom.
  rewrite (othersFrom_split available p x Hp) in ND.
  apply NoDup_remove_2 in ND.
  rewrite in_app_iff in *. tauto.
Qed.

Section Proofs.

Context {Session : Type}.
Variable perform : Activation -> BrowserManager Session -> Outcome * BrowserManager Session.
Variable config : Config.

Lemma tryAccount_run (available : list Z) (startIndex startOffset tryCount i : Z)
      (failed : list Z) (w : World Session) :
  let c := JS.item available (Z.rem (startIndex + i) (JS.length available)) in
  exists lines,
    tryAccount perform available startIndex startOffset tryCount i failed w =
    match perform (SwitchAccount c) (browserManager w) with
    | (None, b') =>
        (Normal (inl {| success := true; newIndex := Some c;
                        failedAccounts := Some failed; finalAttempt := None;
                        reason := None |}),
         {| this := cleared (this w); browserManager := b';
            availableIndices := availableIndices w;
            logged := logged w ++ lines; sent := sent w;
            awaits := awaits w ++ [{| call := SwitchAccount c; meanwhile := this w;
                                      settled := None |}] |})
    | (Some e, b') =>
        (Normal (inr (failed ++ [c])),
         {| this := this w; browserManager := b';
            availableIndices := availableIndices w;
            logged := logged w ++ lines; sent := sent w;
            awaits := awaits w ++ [{| call := SwitchAccount c; meanwhile := this w;
                                      settled := Some e |}] |})
    end.
Proof.
  intro c. unfold tryAccount. fold c. destruct w as [f b av lg st aw]. run.
  destruct (perform (SwitchAccount c) b) as [[e|] b']; run.
  - eexists. rewrite <- !app_assoc. reflexivity.
  - destruct (JS.length failed >? 0); run; eexists; unfold cleared; run;
      rewrite <- !app_assoc; reflexivity.
Qed.

Lemma forLoop_run (available : list Z) (startIndex startOffset tryCount : Z)
      (n : nat) (i : Z) (failed : list Z) (w : World Session) :
  exists lines,
    forLoop n i (tryAccount perform available startIndex startOffset tryCount) failed w =
    match attemptInSequence perform (visited available startIndex n i) (browserManager w) with
    | (failures, Some c, b') =>
        (Normal (inl {| success := true; newIndex := Some c;
                        failedAccounts := Some (failed ++ map fst failures);
                        finalAttempt := None; reason := None |}),
         {| this := cleared (this w); browserManager := b';
            availableIndices := availableIndices w;
            logged := logged w ++ lines; sent := sent w;
            awaits := awaits w ++ walkAwaits (this w) failures (Some c) |})
    | (failures, None, b') =>
        (Normal (inr (failed ++ map fst failures)),
         {| this := this w; browserManager := b';
            availableIndices := availableIndices w;
            logged := logged w ++ lines; sent := sent w;
            awaits := awaits w ++ walkAwaits (this w) failures None |})
    end.
Proof.
  revert i failed w; induction n as [|n IH]; intros i failed w.
  - exists []. destruct w; simpl. unfold walkAwaits; simpl. now rewrite !app_nil_r.
  - cbn [forLoop visited attemptInSequence].
    destruct (tryAccount_run available startIndex startOffset tryCount i failed w)
      as [lines E].
    cbv zeta in E. unfold bind at 1. rewrite E; clear E.
    set (c := JS.item available (Z.rem (startIndex + i) (JS.length available))).
    destruct (perform (SwitchAccount c) (browserManager w)) as [[e|] b'].
    + match goal with
      | |- context [forLoop n (i + 1) ?body ?acc ?w1] =>
          destruct (IH (i + 1) acc w1) as [lines' E']; rewrite E'; clear E'
      end.
      cbn [browserManager this availableIndices logged sent awaits].
      destruct (attemptInSequence perform
                  (visited available startIndex n (i + 1)) b')
        as [[failures [win|]] b''];
        exists (lines ++ lines'); unfold walkAwaits; cbn [map fst snd];
        rewrite <- !app_assoc; reflexivity.
    + exists lines. unfold ret, walkAwaits; cbn [map fst snd].
      now rewrite !app_nil_r.
Qed.

Lemma attemptInSequence_app (xs ys : list Z) (b : BrowserManager Session) :
  attemptInSequence perform (xs ++ ys) b =
  match attemptInSequence perform xs b with
  | (failures, Some c, b') => (failures, Some c, b')
  | (failures, None, b') =>
      match attemptInSequence perform ys b' with
      | (failures', winner, b'') => (failures ++ failures', winner, b'')
      end
  end.
Proof.
  revert b; induction xs as [|x xs IH]; intro b; simpl.
  - now destruct (attemptInSequence perform ys b) as [[? ?] ?].
  - destruct (perform (SwitchAccount x) b) as [[e|] b']; [|reflexivity].
    rewrite IH.
    destruct (attemptInSequence perform xs b') as [[f [c|]] b'']; [reflexivity|].
    now destruct (attemptInSequence perform ys b'') as [[? ?] ?].
Qed.

(** A walk without winner went through the whole list; a walk with a
    winner stopped at it. *)
Lemma attemptInSequence_shape (xs : list Z) (b : BrowserManager Session) :
  match attemptInSequence perform xs b with
  | (failures, None, _) => xs = map fst failures
  | (failures, Some c, _) => exists rest, xs = map fst failures ++ c :: rest
  end.
Proof.
  revert b; induction xs as [|x xs IH]; intro b; simpl; [reflexivity|].
  destruct (perform (SwitchAccount x) b) as [[e|] b'].
  - specialize (IH b').
    destruct (attemptInSequence perform xs b') as [[f [c|]] b'']; simpl.
    + destruct IH as [rest ->]. now exists rest.
    + now rewrite IH.
  - now exists xs.
Qed.

Lemma finalFallback_run (hasCurrentAccount : bool) (originalStartAccount : option Z)
      (failed : list Z) (w : World Session) :
  exists lines,
    finalFallback perform hasCurrentAccount originalStartAccount failed w =
    match attemptInSequence perform
            (finalCandidates hasCurrentAccount originalStartAccount)
            (browserManager w) with
    | (failures, Some c, b') =>
        (Normal (inl {| success := true; newIndex := Some c;
                        failedAccounts := Some (failed ++ map fst failures);
                        finalAttempt := Some true; reason := None |}),
         {| this := cleared (this w); browserManager := b';
            availableIndices := availableIndices w;
            logged := logged w ++ lines; sent := sent w;
            awaits := awaits w ++ walkAwaits (this w) failures (Some c) |})
    | (failures, None, b') =>
        (Normal (inr (failed ++ map fst failures)),
         {| this := this w; browserManager := b';
            availableIndices := availableIndices w;
            logged := logged w ++ lines; sent := sent w;
            awaits := awaits w ++ walkAwaits (this w) failures None |})
    end.
Proof.
  unfold finalFallback, finalCandidates.
  destruct (hasCurrentAccount && JS.truthy originalStartAccount);
    [destruct originalStartAccount as [original|]|].
  - destruct w as [f b av lg st aw]. cbn [attemptInSequence]. run.
    destruct (perform (SwitchAccount original) b) as [[e|] b']; run;
      eexists; unfold walkAwaits, cleared; cbn [map fst snd app]; run;
      rewrite <- ?app_assoc, ?(app_nil_r failed); reflexivity.
  - exists []. destruct w; unfold ret, walkAwaits; simpl. now rewrite !app_nil_r.
  - exists []. destruct w; unfold ret, walkAwaits; simpl. now rewrite !app_nil_r.
Qed.

Lemma multiAccountMode_run (available : list Z) (w : World Session) :
  let current := currentAuthIndex (browserManager w) in
  let loop := loopCandidates available current in
  exists lines,
    multiAccountMode perform available w =
    match attemptInSequence perform (loop ++ lastCandidates available current)
            (browserManager w) with
    | (failures, Some c, b') =>
        (Normal {| success := true; newIndex := Some c;
                   failedAccounts := Some (map fst failures);
                   finalAttempt :=
                     if (List.length failures <? List.length loop)%nat
                     then None else Some true;
                   reason := None |},
         {| this := cleared (this w); browserManager := b';
            availableIndices := availableIndices w;
            logged := logged w ++ lines; sent := sent w;
            awaits := awaits w ++ walkAwaits (this w) failures (Some c) |})
    | (failures, None, b') =>
        (Thrown (allFailedError available),
         {| this := this w;
            browserManager := {| currentAuthIndex := 0; session := session b' |};
            availableIndices := availableIndices w;
            logged := logged w ++ lines ++ [allFailedLine available (map fst failures)];
            sent := sent w;
            awaits := awaits w ++ walkAwaits (this w) failures None |})
    end.
Proof.
  intros current loop.
  unfold multiAccountMode, getCurrentAuthIndex, gets. unfold bind at 1.
  fold current.
  set (idx := JS.indexOf available current).
  set (has := negb (idx =? -1)).
  set (startIndex := if has then idx else 0).
  set (orig := if has then Some (JS.item available startIndex) else None).
  set (startOffset := if has then 1 else 0).
  set (tryCount := if has then JS.length available - 1 else JS.length available).
  assert (Hloop : loop = visited available startIndex (Z.to_nat tryCount) startOffset)
    by reflexivity.
  assert (Hlast : lastCandidates available current = finalCandidates has orig)
    by reflexivity.
  rewrite Hlast, attemptInSequence_app.
  pose proof (attemptInSequence_shape loop (browserManager w)) as Hshape.
  rewrite Hloop in *. clear Hloop Hlast.
  set (cs := visited available startIndex (Z.to_nat tryCount) startOffset) in *.
  set (pre := (if has
               then logger INFO ("   • Starting from: #" +++ JS.nullable orig)
               else logger INFO "   • No current account, will try all available accounts")).
  assert (Hpre : exists line, forall w0 : World Session,
               pre w0 = (Normal tt, with_logged (logged w0 ++ [line]) w0)).
  { subst pre; destruct has; eexists; intro w0; reflexivity. }
  destruct Hpre as [line Hpre].
  repeat (unfold bind at 1; cbn [logger modify]).
  rewrite Hpre.
  match goal with
  | |- context [forLoop ?n ?i ?body ?acc ?w1] =>
      destruct (forLoop_run available startIndex startOffset tryCount n i acc w1)
        as [lines1 E1]; rewrite E1; clear E1
  end.
  cbn [browserManager this availableIndices logged sent awaits with_logged app].
  fold cs.
  destruct (attemptInSequence perform cs (browserManager w)) as [[f1 [c1|]] b1].
  - destruct Hshape as [rest Hcs]. eexists. unfold ret.
    replace (List.length f1 <? List.length cs)%nat with true.
    + rewrite <- !app_assoc. reflexivity.
    + symmetry. apply Nat.ltb_lt. rewrite Hcs, length_app, length_map. simpl. lia.
  - match goal with
    | |- context [finalFallback perform has orig ?acc ?w1] =>
        destruct (finalFallback_run has orig acc w1) as [lines2 E2]; rewrite E2; clear E2
    end.
    cbn [browserManager this availableIndices logged sent awaits app].
    destruct (attemptInSequence perform (finalCandidates has orig) b1)
      as [[f2 [c2|]] b2].
    + eexists. unfold ret.
      replace (List.length (f1 ++ f2) <? List.length cs)%nat with false.
      * unfold walkAwaits. rewrite !map_app, <- !app_assoc. cbn [app]. reflexivity.
      * symmetry. apply Nat.ltb_ge.
        rewrite Hshape, length_app, length_map. lia.
    + run. unfold walkAwaits, allFailedLine, allFailedError.
      rewrite !map_app, !app_nil_r.
      match goal with
      | |- exists lines, (_, {| this := _; browserManager := _;
                                availableIndices := _; logged := ?L ++ [_];
                                sent := _; awaits := _ |}) = _ =>
          assert (HL : exists lines, L = logged w ++ lines)
            by (rewrite <- !app_assoc; eexists; reflexivity)
      end.
      destruct HL as [lines HL]. exists lines. rewrite HL, <- !app_assoc.
      reflexivity.
Qed.

Lemma idle_idle (f : Fields) : isSystemBusy f = false -> idle f = f.
Proof. destruct f as [a b c]; unfold idle; simpl; now intros ->. Qed.

(** No candidate: the method throws before it looks at anything else. *)
Lemma switchToNextAuth_empty (w : World Session) :
  availableIndices w = [] ->
  switchToNextAuth perform w = (Thrown noSources, w).
Proof.
  intro H. unfold switchToNextAuth, gets. unfold bind at 1. rewrite H. reflexivity.
Qed.

(** A switch under way: the method logs one line and returns [skipped]. *)
Lemma switchToNextAuth_busy (w : World Session) :
  availableIndices w <> [] ->
  isSystemBusy (this w) = true ->
  exists line,
    switchToNextAuth perform w = (Normal skipped, with_logged (logged w ++ [line]) w).
Proof.
  intros Hne Hb. unfold switchToNextAuth, gets. unfold bind at 1.
  destruct (availableIndices w) as [|x l] eqn:E; [congruence|].
  replace (JS.length (x :: l) =? 0) with false
    by (symmetry; apply Z.eqb_neq; unfold JS.length; simpl List.length; lia).
  unfold bind at 1. rewrite Hb. eexists. reflexivity.
Qed.

(** One candidate, no switch under way. *)
Lemma switchToNextAuth_single (w : World Session) (x : Z) :
  availableIndices w = [x] ->
  isSystemBusy (this w) = false ->
  exists lines,
    switchToNextAuth perform w =
    match perform (LaunchOrSwitchContext x) (browserManager w) with
    | (None, b') =>
        (Normal {| success := true; newIndex := Some x; failedAccounts := None;
                   finalAttempt := None; reason := None |},
         {| this := idle (cleared (this w)); browserManager := b';
            availableIndices := availableIndices w;
            logged := logged w ++ lines; sent := sent w;
            awaits := awaits w ++ [{| call := LaunchOrSwitchContext x;
                                      meanwhile := busy (this w);
                                      settled := None |}] |})
    | (Some e, b') =>
        (Thrown e,
         {| this := idle (this w); browserManager := b';
            availableIndices := availableIndices w;
            logged := logged w ++ lines; sent := sent w;
            awaits := awaits w ++ [{| call := LaunchOrSwitchContext x;
                                      meanwhile := busy (this w);
                                      settled := Some e |}] |})
    end.
Proof.
  destruct w as [f b av lg st aw]. cbn [availableIndices this].
  intros -> Hb. unfold switchToNextAuth, gets. unfold bind at 1.
  cbn [availableIndices].
  change (JS.length [x] =? 0) with false. cbv iota.
  unfold bind at 1. cbn [this]. rewrite Hb.
  change (JS.length [x] =? 1) with true. cbv iota.
  unfold singleAccountMode. change (JS.item [x] 0) with x. run.
  destruct (perform (LaunchOrSwitchContext x) b) as [[e|] b']; run;
    eexists; unfold idle, cleared, busy; run;
    rewrite <- ?app_assoc; reflexivity.
Qed.

(** Several candidates, no switch under way: the walk of section 4.2. *)
Lemma switchToNextAuth_multi (w : World Session) :
  (2 <= List.length (availableIndices w))%nat ->
  isSystemBusy (this w) = false ->
  let available := availableIndices w in
  let current := currentAuthIndex (browserManager w) in
  let loop := loopCandidates available current in
  exists lines,
    switchToNextAuth perform w =
    match attemptInSequence perform (loop ++ lastCandidates available current)
            (browserManager w) with
    | (failures, Some c, b') =>
        (Normal {| success := true; newIndex := Some c;
                   failedAccounts := Some (map fst failures);
                   finalAttempt :=
                     if (List.length failures <? List.length loop)%nat
                     then None else Some true;
                   reason := None |},
         {| this := idle (cleared (this w)); browserManager := b';
            availableIndices := available;
            logged := logged w ++ lines; sent := sent w;
            awaits := awaits w ++ walkAwaits (busy (this w)) failures (Some c) |})
    | (failures, None, b') =>
        (Thrown (allFailedError available),
         {| this := idle (this w);
            browserManager := {| currentAuthIndex := 0; session := session b' |};
            availableIndices := available;
            logged := logged w ++ lines ++ [allFailedLine available (map fst failures)];
            sent := sent w;
            awaits := awaits w ++ walkAwaits (busy (this w)) failures None |})
    end.
Proof.
  intros Hlen Hb available current loop.
  unfold switchToNextAuth, gets. unfold bind at 1. fold available.
  replace (JS.length available =? 0) with false
    by (symmetry; apply Z.eqb_neq; unfold JS.length; fold available in Hlen; lia).
  unfold bind at 1. rewrite Hb.
  replace (JS.length available =? 1) with false
    by (symmetry; apply Z.eqb_neq; unfold JS.length; fold available in Hlen; lia).
  unfold bind at 1. unfold setBusy at 1. unfold modify at 1.
  unfold try_finally.
  destruct (multiAccountMode_run available (with_this busy w)) as [lines E].
  cbv zeta in E.
  change (with_this (fun f : Fields =>
            {| failureCount := failureCount f; usageCount := usageCount f;
               isSystemBusy := true |}) w) with (with_this busy w).
  rewrite E; clear E.
  cbn [with_this browserManager this availableIndices logged sent awaits].
  fold current. fold loop. fold available.
  destruct (attemptInSequence perform (loop ++ lastCandidates available current)
              (browserManager w)) as [[failures [c|]] b'];
    exists lines; reflexivity.
Qed.

Lemma candidates_member (available : list Z) (p : nat) (current : Z) :
  NoDup available -> nth_error available p = Some current ->
  loopCandidates available current = othersFrom available p /\
  lastCandidates available current = if current =? 0 then [] else [current].
Proof.
  intros ND Hp.
  assert (Hlt : (p < List.length available)%nat) by (apply nth_error_Some; congruence).
  unfold loopCandidates, lastCandidates.
  rewrite (indexOf_position available current p ND Hp).
  replace (Z.of_nat p =? -1) with false by (symmetry; apply Z.eqb_neq; lia).
  cbn [negb]. cbv iota. split.
  - unfold JS.length.
    replace (Z.to_nat (Z.of_nat (List.length available) - 1))
      with (List.length available - 1)%nat by lia.
    apply visited_others; exact Hlt.
  - rewrite (item_nth_error available p current Hp).
    unfold finalCandidates, JS.truthy. cbn [andb].
    now destruct (current =? 0).
Qed.

Lemma candidates_absent (available : list Z) (current : Z) :
  ~ In current available ->
  loopCandidates available current = available /\
  lastCandidates available current = [].
Proof.
  intro N. unfold loopCandidates, lastCandidates.
  rewrite (indexOf_absent available current N).
  cbn [Z.eqb Pos.eqb negb]. cbv iota. split; [|reflexivity].
  unfold JS.length. rewrite Nat2Z.id. apply visited_all.
Qed.

(** A switch under way: [switchToSpecificAuth] logs one line and returns
    [skipped], whatever the target. *)
Lemma switchToSpecificAuth_busy (targetIndex : Z) (w : World Session) :
  isSystemBusy (this w) = true ->
  exists line,
    switchToSpecificAuth perform targetIndex w =
    (Normal skipped, with_logged (logged w ++ [line]) w).
Proof.
  intro Hb. unfold switchToSpecificAuth, gets. unfold bind at 1. rewrite Hb.
  eexists. reflexivity.
Qed.

Lemma switchToSpecificAuth_invalid (targetIndex : Z) (w : World Session) :
  isSystemBusy (this w) = false ->
  JS.arrayIncludes (availableIndices w) targetIndex = false ->
  switchToSpecificAuth perform targetIndex w = (Normal (invalidTarget targetIndex), w).
Proof.
  intros Hb Hin. unfold switchToSpecificAuth, gets. unfold bind at 1. rewrite Hb.
  unfold bind at 1. rewrite Hin. reflexivity.
Qed.

Lemma switchToSpecificAuth_valid (targetIndex : Z) (w : World Session) :
  isSystemBusy (this w) = false ->
  JS.arrayIncludes (availableIndices w) targetIndex = true ->
  exists lines,
    switchToSpecificAuth perform targetIndex w =
    match perform (SwitchAccount targetIndex) (browserManager w) with
    | (None, b') =>
        (Normal {| success := true; newIndex := Some targetIndex;
                   failedAccounts := None; finalAttempt := None; reason := None |},
         {| this := idle (cleared (this w)); browserManager := b';
            availableIndices := availableIndices w;
            logged := logged w ++ lines; sent := sent w;
            awaits := awaits w ++ [{| call := SwitchAccount targetIndex;
                                      meanwhile := busy (this w);
                                      settled := None |}] |})
    | (Some e, b') =>
        (Thrown e,
         {| this := idle (this w); browserManager := b';
            availableIndices := availableIndices w;
            logged := logged w ++ lines; sent := sent w;
            awaits := awaits w ++ [{| call := SwitchAccount targetIndex;
                                      meanwhile := busy (this w);
                                      settled := Some e |}] |})
    end.
Proof.
  intros Hb Hin. unfold switchToSpecificAuth, gets. unfold bind at 1. rewrite Hb.
  unfold bind at 1. rewrite Hin. cbn [negb]. cbv iota.
  destruct w as [f b av lg st aw]. run.
  destruct (perform (SwitchAccount targetIndex) b) as [[e|] b']; run;
    eexists; unfold idle, cleared, busy; run;
    rewrite <- ?app_assoc; reflexivity.
Qed.

(** Counting a failure touches [failureCount] and the log, nothing else,
    and decides by [shouldSwitch]. *)
Lemma recordFailure_run (errorDetails : ErrorDetails) (w : World Session) :
  exists lines,
    recordFailure config errorDetails w =
    (Normal (shouldSwitch config errorDetails (failureCount (this w))),
     {| this := counted (this w); browserManager := browserManager w;
        availableIndices := availableIndices w;
        logged := logged w ++ lines; sent := sent w; awaits := awaits w |}).
Proof.
  unfold recordFailure, shouldSwitch. destruct w as [f b av lg st aw]. run.
  unfold counted. run.
  destruct (failureThreshold config >? 0); run;
    destruct (JS.arrayIncludes (immediateSwitchStatusCodes config) (status errorDetails));
    cbn [orb andb]; run;
    try (destruct (match f with
                   | {| failureCount := c |} => c
                   end + 1 >=? failureThreshold config); run);
    eexists; rewrite <- ?app_assoc; reflexivity.
Qed.

Lemma walkAwaits_meanwhile (f : Fields) (failures : list (Z * Error)) (winner : option Z) :
  Forall (fun s => meanwhile s = f) (walkAwaits f failures winner).
Proof.
  unfold walkAwaits. apply Forall_app; split.
  - apply Forall_forall. intros s Hs. apply in_map_iff in Hs.
    destruct Hs as (ce & <- & _). reflexivity.
  - destruct winner; repeat constructor.
Qed.

(** What any run of [switchToNextAuth] leaves behind. *)
Lemma switchToNextAuth_summary (w : World Session) :
  let c := fst (switchToNextAuth perform w) in
  let w' := snd (switchToNextAuth perform w) in
  availableIndices w' = availableIndices w /\
  sent w' = sent w /\
  (exists lines, logged w' = logged w ++ lines) /\
  (exists new, awaits w' = awaits w ++ new /\
               Forall (fun s => meanwhile s = busy (this w)) new /\
               (isSystemBusy (this w) = true -> new = [])) /\
  isSystemBusy (this w') = isSystemBusy (this w) /\
  match c with
  | Normal r =>
      (success r = true /\ isSystemBusy (this w) = false /\
       this w' = idle (cleared (this w)))
      \/ (r = skipped /\ isSystemBusy (this w) = true /\ this w' = this w /\
          browserManager w' = browserManager w /\ awaits w' = awaits w)
  | Thrown e => this w' = this w
  end.
Proof.
  assert (Hskip : availableIndices w <> [] -> isSystemBusy (this w) = true ->
                  exists line, switchToNextAuth perform w =
                               (Normal skipped, with_logged (logged w ++ [line]) w))
    by apply switchToNextAuth_busy.
  destruct (isSystemBusy (this w)) eqn:Hb;
    remember (availableIndices w) as av eqn:Hav;
    destruct av as [|x [|y l]]; symmetry in Hav.
  1, 4: rewrite (switchToNextAuth_empty w Hav); cbn [fst snd];
    (repeat split; try assumption);
    [ exists []; now rewrite app_nil_r
    | exists []; rewrite app_nil_r; repeat split; constructor ].
  1, 2: destruct Hskip as [line E]; [congruence | reflexivity |]; rewrite E;
    cbn [fst snd with_logged availableIndices sent logged awaits this browserManager];
    (repeat split; try assumption);
    [ now exists [line]
    | exists []; rewrite app_nil_r; repeat split; constructor
    | right; repeat split ].
  - destruct (switchToNextAuth_single w x Hav Hb) as [lines E]. rewrite E.
    destruct (perform (LaunchOrSwitchContext x) (browserManager w)) as [[e|] b'];
      cbn [fst snd availableIndices sent logged awaits this browserManager];
      (repeat split; try assumption);
      try (now exists lines);
      try (eexists; repeat split; [repeat constructor | discriminate]).
    + now apply idle_idle.
    + left. repeat split.
  - assert (Hlen : (2 <= List.length (availableIndices w))%nat)
      by (rewrite Hav; simpl; lia).
    destruct (switchToNextAuth_multi w Hlen Hb) as [lines E]. rewrite E.
    destruct (attemptInSequence perform _ (browserManager w)) as [[failures [c|]] b'];
      cbn [fst snd availableIndices sent logged awaits this browserManager];
      (repeat split; try assumption);
      try (now exists lines);
      try (eexists; reflexivity);
      try (eexists; repeat split; [apply walkAwaits_meanwhile | discriminate]).
    + left. repeat split.
    + now apply idle_idle.
Qed.

Lemma reportResult_run (sendErrorCallback : bool) (result : SwitchResult)
      (w : World Session) :
  exists lines msg,
    reportResult sendErrorCallback result w =
    (Normal tt,
     {| this := this w; browserManager := browserManager w;
        availableIndices := availableIndices w;
        logged := logged w ++ lines;
        sent := sent w ++ (if sendErrorCallback then [msg] else []);
        awaits := awaits w |}).
Proof.
  unfold reportResult. destruct w as [f b av lg st aw].
  destruct (negb (success result)), sendErrorCallback; run;
    do 2 eexists;
    first [exact EmptyString | rewrite <- ?app_assoc, ?(app_nil_r st); reflexivity].
Qed.

Lemma switchFailed_run (sendErrorCallback : bool) (error : Error) (w : World Session) :
  exists lines msg,
    switchFailed sendErrorCallback error w =
    (Normal tt,
     {| this := if JS.includes (message error) onlyOne
                then forgiven (this w) else this w;
        browserManager := browserManager w;
        availableIndices := availableIndices w;
        logged := logged w ++ lines;
        sent := sent w ++ (if sendErrorCallback then [msg] else []);
        awaits := awaits w |}).
Proof.
  unfold switchFailed, onlyOne. destruct w as [f b av lg st aw].
  destruct (JS.includes (message error) "Only one account is available");
    [| destruct (JS.includes (message error) "Fallback failed reason");
       [| destruct (JS.includes (message error) "Switching to account")]];
    destruct sendErrorCallback; run; unfold forgiven; run;
    do 2 eexists;
    first [exact EmptyString | rewrite <- ?app_assoc, ?(app_nil_r st); reflexivity].
Qed.

(** The [try]/[catch] of lines 235-262 by the way [switchToNextAuth]
    completes. *)
Lemma switchAndReport_run (sendErrorCallback : bool) (w : World Session) :
  try_catch (switchAndReport perform sendErrorCallback)
            (switchFailed sendErrorCallback) w =
  match switchToNextAuth perform w with
  | (Normal result, w') => reportResult sendErrorCallback result w'
  | (Thrown error, w') => switchFailed sendErrorCallback error w'
  end.
Proof.
  unfold try_catch, switchAndReport, bind.
  destruct (switchToNextAuth perform w) as [[result|error] w']; [|reflexivity].
  destruct (reportResult_run sendErrorCallback result w') as (lines & msg & E).
  rewrite E. reflexivity.
Qed.

Lemma handleRequestFailureAndSwitch_run (errorDetails : ErrorDetails)
      (sendErrorCallback : bool) (w : World Session) :
  handleRequestFailureAndSwitch perform config errorDetails sendErrorCallback w =
  if shouldSwitch config errorDetails (failureCount (this w)) then
    try_catch (switchAndReport perform sendErrorCallback)
              (switchFailed sendErrorCallback)
              (snd (recordFailure config errorDetails w))
  else (Normal tt, snd (recordFailure config errorDetails w)).
Proof.
  unfold handleRequestFailureAndSwitch, bind.
  destruct (recordFailure_run errorDetails w) as [lines E]. rewrite E. cbn [snd].
  destruct (shouldSwitch config errorDetails (failureCount (this w))); reflexivity.
Qed.

Lemma walkAwaits_calls (f : Fields) (failures : list (Z * Error)) (winner : option Z) :
  map call (walkAwaits f failures winner) =
  map SwitchAccount (map fst failures ++ match winner with
                                         | Some c => [c]
                                         | None => []
                                         end).
Proof.
  unfold walkAwaits. rewrite !map_app, !map_map. cbn [call].
  f_equal. now destruct winner.
Qed.

Lemma walkAwaits_rejected (f : Fields) (failures : list (Z * Error)) (winner : option Z) :
  map rejected (walkAwaits f failures winner) =
  repeat true (List.length failures) ++ match winner with
                                        | Some _ => [false]
                                        | None => []
                                        end.
Proof.
  unfold walkAwaits. rewrite map_app. f_equal.
  - induction failures as [|ce l IH]; simpl; [reflexivity | now rewrite IH].
  - now destruct winner.
Qed.

(** ** Candidate selection *)

(** C8.  [getNextAuthIndex] changes nothing in the state (it may only log
    its warning) and its result is determined by the candidate set and the
    current index: nothing for an empty set; for a set without repetition
    that holds the current index at position [p], the element at position
    [(p + 1) mod n]; the sole element of a one-element set; and the first
    element when the current index is not in the set. *)
Theorem getNextAuthIndex_selection (w : World Session) :
  let available := availableIndices w in
  let current := currentAuthIndex (browserManager w) in
  let n := List.length available in
  with_logged (logged w) (snd (getNextAuthIndex w)) = w /\
  (forall w2 : World Session,
      availableIndices w2 = available ->
      currentAuthIndex (browserManager w2) = current ->
      fst (getNextAuthIndex w2) = fst (getNextAuthIndex w)) /\
  (available = [] -> fst (getNextAuthIndex w) = Normal None) /\
  (forall p : nat,
      NoDup available -> nth_error available p = Some current ->
      fst (getNextAuthIndex w) = Normal (nth_error available ((p + 1) mod n))) /\
  (forall x : Z, available = [x] -> fst (getNextAuthIndex w) = Normal (Some x)) /\
  (forall (first : Z) (rest : list Z),
      available = first :: rest -> ~ In current available ->
      fst (getNextAuthIndex w) = Normal (Some first)).
Proof.
  intros available current n.
  assert (Hrun : forall v : World Session,
             getNextAuthIndex v =
             if JS.length (availableIndices v) =? 0 then (Normal None, v)
             else if JS.indexOf (availableIndices v) (currentAuthIndex (browserManager v)) =? -1
                  then (Normal (Some (JS.item (availableIndices v) 0)),
                        with_logged
                          (logged v ++
                           [(WARN, "[Auth] Current index " +++
                                   JS.string_of_Z (currentAuthIndex (browserManager v)) +++
                                   " not in available list, switching to first available index.")])
                          v)
                  else (Normal (Some (JS.item (availableIndices v)
                                        (Z.rem (JS.indexOf (availableIndices v)
                                                  (currentAuthIndex (browserManager v)) + 1)
                                           (JS.length (availableIndices v))))), v)).
  { intro v. unfold getNextAuthIndex, gets, getCurrentAuthIndex. unfold bind at 1.
    destruct (JS.length (availableIndices v) =? 0); [reflexivity|].
    unfold bind at 1. unfold gets.
    destruct (JS.indexOf (availableIndices v) (currentAuthIndex (browserManager v)) =? -1);
      reflexivity. }
  assert (Hmember : forall p : nat,
             NoDup available -> nth_error available p = Some current ->
             fst (getNextAuthIndex w) = Normal (nth_error available ((p + 1) mod n))).
  { intros p ND Hp. rewrite Hrun. fold available current.
    assert (Hlt : (p < n)%nat) by (apply nth_error_Some; congruence).
    replace (JS.length available =? 0) with false
      by (symmetry; apply Z.eqb_neq; unfold JS.length; fold n; lia).
    rewrite (indexOf_position available current p ND Hp).
    replace (Z.of_nat p =? -1) with false by (symmetry; apply Z.eqb_neq; lia).
    cbn [fst]. f_equal.
    assert (Hm : ((p + 1) mod n < n)%nat) by (apply Nat.mod_upper_bound; lia).
    rewrite (nth_error_nth' available 0 Hm). f_equal.
    unfold JS.item, JS.length. fold n. f_equal.
    rewrite Z.rem_mod_nonneg by lia.
    replace (Z.of_nat p + 1) with (Z.of_nat (p + 1)) by lia.
    rewrite <- Nat2Z.inj_mod. apply Nat2Z.id. }
  assert (Habsent : forall (first : Z) (rest : list Z),
             available = first :: rest -> ~ In current available ->
             fst (getNextAuthIndex w) = Normal (Some first)).
  { intros first rest Hav N. rewrite Hrun. fold available current.
    rewrite (indexOf_absent available current N), Hav. reflexivity. }
  repeat split.
  - rewrite Hrun. destruct w as [f b av lg st aw].
    destruct (JS.length _ =? 0); [reflexivity|].
    destruct (JS.indexOf _ _ =? -1); reflexivity.
  - intros w2 Hav Hcur. rewrite !Hrun, Hav, Hcur. fold available current.
    destruct (JS.length available =? 0); [reflexivity|].
    destruct (JS.indexOf available current =? -1); reflexivity.
  - intro Hav. rewrite Hrun. fold available. rewrite Hav. reflexivity.
  - exact Hmember.
  - intros x Hav. destruct (Z.eq_dec current x) as [E|E].
    + rewrite (Hmember 0%nat).
      * subst n. rewrite Hav. reflexivity.
      * rewrite Hav. repeat constructor. simpl; tauto.
      * rewrite Hav, E. reflexivity.
    + apply (Habsent x []); [exact Hav|]. rewrite Hav. simpl. intuition congruence.
  - exact Habsent.
Qed.

(** ** The multi-account walk *)

(** X19.  Several candidates without repetition, no switch under way,
    the current index held at position [p] and different from [0] (the
    value the code gives an unset index): the other [n - 1] candidates,
    walked forward from [p] with wraparound, are tried one after the
    other, the original is tried last and once, and the walk ends at the
    first success as [walksThrough] says. *)
Theorem switchToNextAuth_original_last (w : World Session) (p : nat) :
  isSystemBusy (this w) = false ->
  (1 < List.length (availableIndices w))%nat ->
  NoDup (availableIndices w) ->
  nth_error (availableIndices w) p = Some (currentAuthIndex (browserManager w)) ->
  currentAuthIndex (browserManager w) <> 0 ->
  let original := currentAuthIndex (browserManager w) in
  let others := othersFrom (availableIndices w) p in
  List.length others = (List.length (availableIndices w) - 1)%nat /\
  ~ In original others /\
  (forall c : Z, In c (availableIndices w) -> c = original \/ In c others) /\
  walksThrough perform (others ++ [original]) w.
Proof.
  intros Hb Hlen ND Hp Hnz original others.
  assert (Hlt : (p < List.length (availableIndices w))%nat)
    by (apply nth_error_Some; congruence).
  split; [now apply othersFrom_length|].
  split; [now apply othersFrom_skips|].
  split; [intros c Hc; now apply (othersFrom_complete _ p)|].
  destruct (candidates_member _ p _ ND Hp) as [Hloop Hlast].
  replace (currentAuthIndex (browserManager w) =? 0) with false in Hlast
    by (symmetry; now apply Z.eqb_neq).
  destruct (switchToNextAuth_multi w Hlen Hb) as [lines E]. cbv zeta in E.
  pose proof (attemptInSequence_shape
                (loopCandidates (availableIndices w) original
                 ++ lastCandidates (availableIndices w) original)
                (browserManager w)) as Hshape.
  unfold walksThrough. fold original in E, Hloop, Hlast. rewrite E; clear E.
  rewrite Hloop, Hlast in *. fold others in Hshape |- *.
  destruct (attemptInSequence perform (others ++ [original]) (browserManager w))
    as [[failures [c|]] b']; cbn [fst snd awaits].
  - destruct Hshape as [rest Hs].
    eexists; split; [reflexivity|]. left.
    exists (map fst failures), c, rest. repeat split.
    + exact Hs.
    + apply walkAwaits_calls.
    + rewrite walkAwaits_rejected, length_map. reflexivity.
    + do 2 f_equal.
      apply (f_equal (@List.length Z)) in Hs.
      rewrite !length_app, length_map in Hs. cbn [List.length] in Hs.
      destruct rest as [|r rest].
      * replace (List.length failures <? List.length others)%nat with false
          by (symmetry; apply Nat.ltb_ge; simpl in Hs; lia).
        reflexivity.
      * replace (List.length failures <? List.length others)%nat with true
          by (symmetry; apply Nat.ltb_lt; simpl in Hs; lia).
        reflexivity.
  - eexists; split; [reflexivity|]. right. repeat split.
    + rewrite walkAwaits_calls, app_nil_r, <- Hshape. reflexivity.
    + rewrite walkAwaits_rejected, app_nil_r, Hshape, length_map. reflexivity.
    + eexists; reflexivity.
Qed.

(** C2, amended.  Several candidates, no switch under way, and every
    activation the run makes is rejected: the current index is set to [0],
    the error thrown has the message
    "All n available accounts failed to initialize (including final retry)."
    with [n] the number of candidates, and the last line logged is the
    error line "FATAL: All n accounts failed! Failed accounts: [...]" with
    the accounts tried, in the order tried.  That order is the other
    candidates followed by the original when the current index is a
    candidate other than [0], and the whole candidate list when it is not a
    candidate.  The list is in the log line only. *)
Theorem switchToNextAuth_all_failed (w : World Session) :
  isSystemBusy (this w) = false ->
  (1 < List.length (availableIndices w))%nat ->
  (forall new : list Suspension,
      awaits (snd (switchToNextAuth perform w)) = awaits w ++ new ->
      Forall (fun s => settled s <> None) new) ->
  let available := availableIndices w in
  let current := currentAuthIndex (browserManager w) in
  let w' := snd (switchToNextAuth perform w) in
  exists (new : list Suspension) (lines : list (Level * string)),
    awaits w' = awaits w ++ new /\
    fst (switchToNextAuth perform w) =
      Thrown {| message := "All " +++ JS.string_of_Z (JS.length available) +++
                           " available accounts failed to initialize (including final retry)." |} /\
    currentAuthIndex (browserManager w') = 0 /\
    logged w' =
      logged w ++ lines ++
      [(ERROR, "FATAL: All " +++ JS.string_of_Z (JS.length available) +++
               " accounts failed! Failed accounts: [" +++
               JS.join ", " (attempted new) +++ "]")] /\
    (forall p : nat,
        NoDup available -> nth_error available p = Some current -> current <> 0 ->
        attempted new = othersFrom available p ++ [current]) /\
    (~ In current available -> attempted new = available).
Proof.
  intros Hb Hlen Hall available current w'.
  destruct (switchToNextAuth_multi w Hlen Hb) as [lines E]. cbv zeta in E.
  pose proof (attemptInSequence_shape
                (loopCandidates available current ++ lastCandidates available current)
                (browserManager w)) as Hshape.
  subst w'. fold available current in E. rewrite E in *; clear E.
  destruct (attemptInSequence perform
              (loopCandidates available current ++ lastCandidates available current)
              (browserManager w)) as [[failures [c|]] b']; cbn [fst snd awaits] in *.
  - exfalso. specialize (Hall _ eq_refl).
    unfold walkAwaits in Hall. apply Forall_app in Hall. destruct Hall as [_ Hall].
    inversion Hall as [|s l Hs _]; subst. now apply Hs.
  - assert (Hatt : attempted (walkAwaits (busy (this w)) failures None) = map fst failures).
    { unfold attempted. rewrite walkAwaits_calls, app_nil_r, map_map.
      cbn [target]. apply map_id. }
    exists (walkAwaits (busy (this w)) failures None), lines.
    rewrite Hatt, <- Hshape. repeat split.
    + intros p ND Hp Hnz.
      destruct (candidates_member available p current ND Hp) as [-> ->].
      replace (current =? 0) with false by (symmetry; now apply Z.eqb_neq).
      reflexivity.
    + intro N. destruct (candidates_absent available current N) as [-> ->].
      apply app_nil_r.
Qed.

(** ** The busy guard *)

Lemma skips_when_busy (w : World Session) (targetIndex : Z) :
  isSystemBusy (this w) = true ->
  (availableIndices w <> [] -> skipsWithoutEffect (switchToNextAuth perform) w) /\
  skipsWithoutEffect (switchToSpecificAuth perform targetIndex) w.
Proof.
  intro Hb. split.
  - intro Hne. destruct (switchToNextAuth_busy w Hne Hb) as [line E].
    unfold skipsWithoutEffect. rewrite E. repeat split.
  - destruct (switchToSpecificAuth_busy targetIndex w Hb) as [line E].
    unfold skipsWithoutEffect. rewrite E. repeat split.
Qed.

Lemma switchToSpecificAuth_held (w : World Session) (targetIndex : Z) :
  isSystemBusy (this w) = false ->
  heldThroughout (switchToSpecificAuth perform targetIndex) w.
Proof.
  intro Hb. unfold heldThroughout.
  destruct (JS.arrayIncludes (availableIndices w) targetIndex) eqn:Hin.
  - destruct (switchToSpecificAuth_valid targetIndex w Hb Hin) as [lines E]. rewrite E.
    destruct (perform (SwitchAccount targetIndex) (browserManager w)) as [[e|] b'];
      cbn [fst snd this awaits]; (split; [reflexivity|]);
      eexists; (split; [reflexivity|]); repeat constructor.
  - rewrite (switchToSpecificAuth_invalid targetIndex w Hb Hin). cbn [fst snd].
    split; [exact Hb|]. exists []. rewrite app_nil_r. split; [reflexivity|constructor].
Qed.

Lemma switchToNextAuth_held (w : World Session) :
  isSystemBusy (this w) = false ->
  heldThroughout (switchToNextAuth perform) w.
Proof.
  intro Hb. unfold heldThroughout.
  destruct (switchToNextAuth_summary w) as (_ & _ & _ & (new & Hnew & Hall & _) & Hbusy & _).
  split; [congruence|].
  exists new. split; [exact Hnew|].
  eapply Forall_impl; [|exact Hall]. intros s ->. reflexivity.
Qed.

(** C3, amended.  With a switch under way, [switchToSpecificAuth] and,
    when there is a candidate at all, [switchToNextAuth] return the
    "Switch already in progress." result at once, without an activation
    and without touching the state.  With no switch under way, either
    operation has [isSystemBusy] true at each of its suspensions and false
    again when it completes, by return or by error; so an operation that
    starts while another is suspended is skipped. *)
Theorem one_switch_at_a_time (w : World Session) (targetIndex : Z) :
  (isSystemBusy (this w) = true ->
   (availableIndices w <> [] -> skipsWithoutEffect (switchToNextAuth perform) w) /\
   skipsWithoutEffect (switchToSpecificAuth perform targetIndex) w) /\
  (isSystemBusy (this w) = false ->
   forall operation : M Session SwitchResult,
     operation = switchToNextAuth perform \/
     operation = switchToSpecificAuth perform targetIndex ->
     heldThroughout operation w /\
     forall (s : Suspension) (later : World Session) (otherTarget : Z),
       In s (awaits (snd (operation w))) -> ~ In s (awaits w) ->
       this later = meanwhile s ->
       (availableIndices later <> [] ->
        skipsWithoutEffect (switchToNextAuth perform) later) /\
       skipsWithoutEffect (switchToSpecificAuth perform otherTarget) later).
Proof.
  split; [apply skips_when_busy|].
  intros Hb operation Hop.
  assert (Hheld : heldThroughout operation w).
  { destruct Hop as [-> | ->];
      [now apply switchToNextAuth_held | now apply switchToSpecificAuth_held]. }
  split; [exact Hheld|].
  intros s later otherTarget Hin Hnew Hlater.
  destruct Hheld as (_ & new & Hawaits & Hall).
  rewrite Hawaits in Hin. apply in_app_or in Hin. destruct Hin as [Hin|Hin]; [tauto|].
  apply skips_when_busy. rewrite Hlater.
  rewrite Forall_forall in Hall. now apply Hall.
Qed.

(** ** Failure reporting *)

Lemma recordFailure_frame (errorDetails : ErrorDetails) (w : World Session) :
  let w1 := snd (recordFailure config errorDetails w) in
  this w1 = counted (this w) /\
  browserManager w1 = browserManager w /\
  availableIndices w1 = availableIndices w /\
  sent w1 = sent w /\
  awaits w1 = awaits w.
Proof.
  destruct (recordFailure_run errorDetails w) as [lines E]. rewrite E.
  repeat split.
Qed.

(** C4.  A reported failure raises [failureCount] by exactly one and
    touches nothing else before the decision.  The report then runs
    [switchToNextAuth], once, in that state, and reports its completion,
    exactly when the status is an immediate-switch status or the
    threshold is positive and reached by the new count; otherwise it
    returns with nothing but the count changed.  With threshold [0] and
    no immediate status among the reports, any number of reports only
    raises the count: no activation, no notification. *)
Theorem handleRequestFailureAndSwitch_policy
        (w : World Session) (errorDetails : ErrorDetails) (sendErrorCallback : bool) :
  let w1 := snd (recordFailure config errorDetails w) in
  let immediate :=
    JS.arrayIncludes (immediateSwitchStatusCodes config) (status errorDetails) in
  let reached :=
    (failureThreshold config >? 0)
    && (failureCount (this w) + 1 >=? failureThreshold config) in
  (failureCount (this w1) = failureCount (this w) + 1 /\
   usageCount (this w1) = usageCount (this w) /\
   isSystemBusy (this w1) = isSystemBusy (this w) /\
   browserManager w1 = browserManager w /\
   availableIndices w1 = availableIndices w /\
   sent w1 = sent w /\
   awaits w1 = awaits w) /\
  (immediate || reached = true ->
   handleRequestFailureAndSwitch perform config errorDetails sendErrorCallback w =
   match switchToNextAuth perform w1 with
   | (Normal result, w') => reportResult sendErrorCallback result w'
   | (Thrown error, w') => switchFailed sendErrorCallback error w'
   end) /\
  (immediate || reached = false ->
   handleRequestFailureAndSwitch perform config errorDetails sendErrorCallback w =
   (Normal tt, w1)) /\
  (failureThreshold config = 0 ->
   forall reports : list (ErrorDetails * bool),
     Forall (fun r => JS.arrayIncludes (immediateSwitchStatusCodes config)
                        (status (fst r)) = false) reports ->
     let w' := reportAll perform config reports w in
     failureCount (this w') = failureCount (this w) + Z.of_nat (List.length reports) /\
     usageCount (this w') = usageCount (this w) /\
     isSystemBusy (this w') = isSystemBusy (this w) /\
     browserManager w' = browserManager w /\
     sent w' = sent w /\
     awaits w' = awaits w).
Proof.
  intros w1 immediate reached.
  destruct (recordFailure_frame errorDetails w) as (Hthis & Hbm & Hav & Hsent & Haw).
  fold w1 in Hthis, Hbm, Hav, Hsent, Haw.
  split; [rewrite Hthis; repeat split; assumption|].
  split; [|split].
  - intro H. rewrite handleRequestFailureAndSwitch_run.
    unfold shouldSwitch. fold immediate reached. rewrite H.
    apply switchAndReport_run.
  - intro H. rewrite handleRequestFailureAndSwitch_run.
    unfold shouldSwitch. fold immediate reached. rewrite H. reflexivity.
  - intros Hzero reports. clear Hthis Hbm Hav Hsent Haw. clear w1 immediate reached.
    revert w.
    induction reports as [|[d cb] rest IH]; intros w Hall w'.
    + subst w'. cbn. repeat split. lia.
    + inversion Hall as [|r l Hd Hrest]; subst. cbn [fst] in Hd.
      subst w'. cbn [reportAll].
      rewrite handleRequestFailureAndSwitch_run.
      unfold shouldSwitch. rewrite Hd, Hzero. cbn [Z.gtb Z.compare orb andb snd].
      destruct (recordFailure_frame d w) as (Hthis & Hbm & _ & Hsent & Haw).
      destruct (IH (snd (recordFailure config d w)) Hrest)
        as (H1 & H2 & H3 & H4 & H5 & H6).
      rewrite H1, H2, H3, H4, H5, H6, Hthis, Hbm, Hsent, Haw.
      cbn [counted failureCount usageCount isSystemBusy List.length].
      repeat split. lia.
Qed.

(** *** The callback as the caller's function *)

Lemma Caller_reportResult_run (sendErrorCallback : Callback) (result : SwitchResult)
      (w : World Session) :
  exists lines,
    Caller.reportResult sendErrorCallback result w =
    let m := resultMessage result (currentAuthIndex (browserManager w)) in
    let w' := with_logged (logged w ++ lines) w in
    match sendErrorCallback with
    | None => (Normal tt, w')
    | Some f =>
        (match f (sent w) m with
         | None => Normal tt
         | Some e => Thrown e
         end,
         with_sent (sent w ++ [m]) w')
    end.
Proof.
  unfold Caller.reportResult, Caller.notify, resultMessage, reasonText.
  destruct w as [fl b av lg st aw].
  destruct (negb (success result)); destruct sendErrorCallback as [f|]; run;
    try (match goal with
         | |- context [f st ?m] => destruct (f st m)
         end);
    eexists; reflexivity.
Qed.

Lemma Caller_switchFailed_run (sendErrorCallback : Callback) (error : Error)
      (w : World Session) :
  exists lines,
    Caller.switchFailed sendErrorCallback error w =
    let m := userMessage error (currentAuthIndex (browserManager w)) in
    let w' := {| this := if JS.includes (message error) onlyOne
                         then forgiven (this w) else this w;
                 browserManager := browserManager w;
                 availableIndices := availableIndices w;
                 logged := logged w ++ lines; sent := sent w; awaits := awaits w |} in
    match sendErrorCallback with
    | None => (Normal tt, w')
    | Some f =>
        (match f (sent w) m with
         | None => Normal tt
         | Some e => Thrown e
         end,
         with_sent (sent w ++ [m]) w')
    end.
Proof.
  unfold Caller.switchFailed, Caller.notify, userMessage, onlyOne.
  destruct w as [fl b av lg st aw].
  destruct (JS.includes (message error) "Only one account is available");
    [| destruct (JS.includes (message error) "Fallback failed reason");
       [| destruct (JS.includes (message error) "Switching to account")]];
    destruct sendErrorCallback as [f|]; run; unfold forgiven; run;
    try (match goal with
         | |- context [f st ?m] => destruct (f st m)
         end);
    eexists; rewrite <- ?app_assoc; reflexivity.
Qed.

(** The [try]/[catch] of lines 235-262: an error of the callback at line
    240 or 246 is caught by the [catch] as well. *)
Lemma Caller_switchAndReport_run (sendErrorCallback : Callback) (w : World Session) :
  try_catch (Caller.switchAndReport perform sendErrorCallback)
            (Caller.switchFailed sendErrorCallback) w =
  match switchToNextAuth perform w with
  | (Normal result, w') =>
      match Caller.reportResult sendErrorCallback result w' with
      | (Normal u, w'') => (Normal u, w'')
      | (Thrown e, w'') => Caller.switchFailed sendErrorCallback e w''
      end
  | (Thrown error, w') => Caller.switchFailed sendErrorCallback error w'
  end.
Proof.
  unfold try_catch, Caller.switchAndReport, bind.
  destruct (switchToNextAuth perform w) as [[result|error] w']; [|reflexivity].
  now destruct (Caller.reportResult sendErrorCallback result w') as [[u|e] w''].
Qed.

Lemma Caller_handleRequestFailureAndSwitch_run (errorDetails : ErrorDetails)
      (sendErrorCallback : Callback) (w : World Session) :
  Caller.handleRequestFailureAndSwitch perform config errorDetails sendErrorCallback w =
  if shouldSwitch config errorDetails (failureCount (this w)) then
    try_catch (Caller.switchAndReport perform sendErrorCallback)
              (Caller.switchFailed sendErrorCallback)
              (snd (recordFailure config errorDetails w))
  else (Normal tt, snd (recordFailure config errorDetails w)).
Proof.
  unfold Caller.handleRequestFailureAndSwitch, bind.
  destruct (recordFailure_run errorDetails w) as [lines E]. rewrite E. cbn [snd].
  destruct (shouldSwitch config errorDetails (failureCount (this w))); reflexivity.
Qed.

Lemma bind_ext {A B : Type} (m : M Session A) (k1 k2 : A -> M Session B)
      (w : World Session) :
  (forall (a : A) (v : World Session), k1 a v = k2 a v) ->
  bind m k1 w = bind m k2 w.
Proof.
  intro H. unfold bind. destruct (m w) as [[a|e] v]; [apply H | reflexivity].
Qed.

(** With no callback, or with one that returns, the method is the one of
    section [Machine] that takes the flag. *)
Lemma Caller_agrees (errorDetails : ErrorDetails) (sendErrorCallback : Callback)
      (w : World Session) :
  returnsNormally sendErrorCallback ->
  Caller.handleRequestFailureAndSwitch perform config errorDetails sendErrorCallback w
  = handleRequestFailureAndSwitch perform config errorDetails (present sendErrorCallback) w.
Proof.
  intro Hret.
  assert (Hnotify : forall (msg : string) (v : World Session),
             Caller.notify sendErrorCallback msg v = notify (present sendErrorCallback) msg v).
  { intros msg v. unfold Caller.notify, notify, present.
    destruct sendErrorCallback as [f|]; [|reflexivity].
    cbn in Hret. now rewrite Hret. }
  assert (Hreport : forall (result : SwitchResult) (v : World Session),
             Caller.reportResult sendErrorCallback result v
             = reportResult (present sendErrorCallback) result v).
  { intros result v. unfold Caller.reportResult, reportResult.
    destruct (negb (success result));
      repeat (apply bind_ext; intros); apply Hnotify. }
  assert (Hfailed : forall (error : Error) (v : World Session),
             Caller.switchFailed sendErrorCallback error v
             = switchFailed (present sendErrorCallback) error v).
  { intros error v. unfold Caller.switchFailed, switchFailed.
    repeat (apply bind_ext; intros). apply Hnotify. }
  rewrite Caller_handleRequestFailureAndSwitch_run, handleRequestFailureAndSwitch_run.
  destruct (shouldSwitch config errorDetails (failureCount (this w))); [|reflexivity].
  rewrite Caller_switchAndReport_run, switchAndReport_run.
  destruct (switchToNextAuth perform (snd (recordFailure config errorDetails w)))
    as [[result|error] w']; [|apply Hfailed].
  rewrite Hreport.
  destruct (reportResult_run (present sendErrorCallback) result w') as (lines & msg & R).
  rewrite R. reflexivity.
Qed.

(** C5, amended.  With no callback, or a callback that returns, and with
    the errors of the collaborators carrying a message (section 6 of the
    specification), [handleRequestFailureAndSwitch] completes normally
    whatever the browser manager does; and when it ran [switchToNextAuth]
    and that threw, the callback was passed the one message lines 248-258
    choose for the error, with the state as the switch left it but for the
    reset of line 253. *)
Theorem handleRequestFailureAndSwitch_never_throws
        (w : World Session) (errorDetails : ErrorDetails) (sendErrorCallback : Callback) :
  returnsNormally sendErrorCallback ->
  let run := Caller.handleRequestFailureAndSwitch perform config errorDetails
               sendErrorCallback w in
  fst run = Normal tt /\
  forall error : Error,
    shouldSwitch config errorDetails (failureCount (this w)) = true ->
    fst (switchToNextAuth perform (snd (recordFailure config errorDetails w)))
    = Thrown error ->
    let w' := snd (switchToNextAuth perform (snd (recordFailure config errorDetails w))) in
    sent (snd run)
    = sent w ++ (if present sendErrorCallback
                 then [userMessage error (currentAuthIndex (browserManager w'))]
                 else []) /\
    this (snd run)
    = (if JS.includes (message error) onlyOne then forgiven (this w') else this w') /\
    browserManager (snd run) = browserManager w' /\
    awaits (snd run) = awaits w'.
Proof.
  intros Hret run. subst run.
  rewrite Caller_handleRequestFailureAndSwitch_run.
  destruct (shouldSwitch config errorDetails (failureCount (this w))).
  - rewrite Caller_switchAndReport_run.
    destruct (switchToNextAuth_summary (snd (recordFailure config errorDetails w)))
      as (_ & Hsent & _).
    destruct (recordFailure_frame errorDetails w) as (_ & _ & _ & Hsent0 & _).
    destruct (switchToNextAuth perform (snd (recordFailure config errorDetails w)))
      as [[result|error] w']; cbn [fst snd] in *.
    + destruct (Caller_reportResult_run sendErrorCallback result w') as (lines & R).
      rewrite R. cbv zeta.
      destruct sendErrorCallback as [f|]; [cbn in Hret; rewrite Hret|];
        (split; [reflexivity|]); intros error _ H; discriminate H.
    + destruct (Caller_switchFailed_run sendErrorCallback error w') as (lines & R).
      rewrite R. cbv zeta.
      destruct sendErrorCallback as [f|]; [cbn in Hret; rewrite Hret|];
        (split; [reflexivity|]); intros error' _ [= <-];
        cbn [fst snd sent this browserManager awaits with_sent present];
        rewrite Hsent, Hsent0, ?app_nil_r; repeat split.
  - split; [reflexivity|]. intros error H. discriminate H.
Qed.

(** ** Direct switch *)

Lemma arrayIncludes_absent (l : list Z) (x : Z) :
  ~ In x l -> JS.arrayIncludes l x = false.
Proof.
  intro N. unfold JS.arrayIncludes.
  destruct (existsb (Z.eqb x) l) eqn:E; [|reflexivity].
  apply existsb_exists in E. destruct E as (y & Hy & Heq).
  apply Z.eqb_eq in Heq. subst. contradiction.
Qed.

(** C6, amended.  A target that is not a candidate gets a result, not an
    error, with [success] false, and nothing happens: no activation, no
    change of state.  The reason is the invalid-target text when no
    switch is under way, and "Switch already in progress." when one is:
    the busy test comes first. *)
Theorem switchToSpecificAuth_unknown_target (w : World Session) (targetIndex : Z) :
  ~ In targetIndex (availableIndices w) ->
  let w' := snd (switchToSpecificAuth perform targetIndex w) in
  (exists result : SwitchResult,
      fst (switchToSpecificAuth perform targetIndex w) = Normal result /\
      success result = false /\
      reason result =
        Some (if isSystemBusy (this w)
              then "Switch already in progress."
              else "Switch failed: Account #" +++ JS.string_of_Z targetIndex +++
                   " invalid or does not exist.")) /\
  this w' = this w /\
  browserManager w' = browserManager w /\
  availableIndices w' = availableIndices w /\
  sent w' = sent w /\
  awaits w' = awaits w.
Proof.
  intros N w'. subst w'.
  destruct (isSystemBusy (this w)) eqn:Hb.
  - destruct (switchToSpecificAuth_busy targetIndex w Hb) as [line E]. rewrite E.
    cbn [fst snd]. split; [|repeat split].
    exists skipped. repeat split.
  - rewrite (switchToSpecificAuth_invalid targetIndex w Hb (arrayIncludes_absent _ _ N)).
    cbn [fst snd]. split; [|repeat split].
    exists (invalidTarget targetIndex). repeat split.
Qed.

(** ** Counters *)

Lemma switchToNextAuth_counters (w : World Session) :
  countersFollowSuccess (switchToNextAuth perform) w.
Proof.
  unfold countersFollowSuccess.
  destruct (switchToNextAuth_summary w) as (_ & _ & _ & _ & _ & H). cbv zeta in H.
  destruct (fst (switchToNextAuth perform w)) as [result|error].
  - destruct H as [(-> & _ & ->) | (-> & _ & -> & _)]; cbn; repeat split.
  - rewrite H. repeat split.
Qed.

Lemma switchToSpecificAuth_counters (w : World Session) (targetIndex : Z) :
  countersFollowSuccess (switchToSpecificAuth perform targetIndex) w.
Proof.
  unfold countersFollowSuccess.
  destruct (isSystemBusy (this w)) eqn:Hb.
  - destruct (switchToSpecificAuth_busy targetIndex w Hb) as [line E]. rewrite E.
    cbn. repeat split.
  - destruct (JS.arrayIncludes (availableIndices w) targetIndex) eqn:Hin.
    + destruct (switchToSpecificAuth_valid targetIndex w Hb Hin) as [lines E]. rewrite E.
      destruct (perform (SwitchAccount targetIndex) (browserManager w)) as [[e|] b'];
        cbn; repeat split.
    + rewrite (switchToSpecificAuth_invalid targetIndex w Hb Hin). cbn. repeat split.
Qed.

(** C9.  [resetCounters] sets both counters to [0].  After
    [switchToNextAuth] (one candidate, several, final attempt) and after
    [switchToSpecificAuth], both counters are [0] if the result is a
    success and both are untouched otherwise.  After a failure report,
    both are [0] if the report ran a switch that returned success, and
    otherwise [usageCount] is untouched: nothing but a successful switch
    resets the two of them. *)
Theorem counters_reset_with_success
        (w : World Session) (targetIndex : Z)
        (errorDetails : ErrorDetails) (sendErrorCallback : bool) :
  this (snd (resetCounters w)) = cleared (this w) /\
  countersFollowSuccess (switchToNextAuth perform) w /\
  countersFollowSuccess (switchToSpecificAuth perform targetIndex) w /\
  let w' := snd (handleRequestFailureAndSwitch perform config errorDetails
                   sendErrorCallback w) in
  if reportSwitches perform config errorDetails w
  then failureCount (this w') = 0 /\ usageCount (this w') = 0
  else usageCount (this w') = usageCount (this w).
Proof.
  split; [reflexivity|].
  split; [apply switchToNextAuth_counters|].
  split; [apply switchToSpecificAuth_counters|].
  cbv zeta. unfold reportSwitches.
  rewrite handleRequestFailureAndSwitch_run.
  destruct (recordFailure_frame errorDetails w) as (Hthis & _).
  pose proof (switchToNextAuth_counters (snd (recordFailure config errorDetails w))) as Hc.
  unfold countersFollowSuccess in Hc. rewrite Hthis in Hc.
  destruct (shouldSwitch config errorDetails (failureCount (this w))); cbn [andb].
  - rewrite switchAndReport_run.
    destruct (switchToNextAuth perform (snd (recordFailure config errorDetails w)))
      as [[result|error] w2]; cbn [fst snd] in *.
    + destruct (reportResult_run sendErrorCallback result w2) as (lines & msg & R).
      rewrite R. cbn [snd this].
      destruct (success result); [exact Hc | exact (proj2 Hc)].
    + destruct (switchFailed_run sendErrorCallback error w2) as (lines & msg & R).
      rewrite R. cbn [snd this].
      destruct (JS.includes (message error) onlyOne); [cbn|]; exact (proj2 Hc).
  - cbn [snd]. rewrite Hthis. reflexivity.
Qed.




End Proofs.


(** ** Runs on concrete collaborators *)

(** The runs of section 8 of the specification on candidates [1, 2, 3] with
    account 1 current. *)

Example second_fails_third_succeeds :
  let run := switchToNextAuth (flaky [2] "timeout") (start 2 5 false 1 [1; 2; 3]) in
  fst run = Normal {| success := true; newIndex := Some 3; failedAccounts := Some [2];
                      finalAttempt := None; reason := None |} /\
  map call (awaits (snd run)) = [SwitchAccount 2; SwitchAccount 3] /\
  this (snd run) = {| failureCount := 0; usageCount := 0; isSystemBusy := false |}.
Proof. vm_compute. repeat split. Qed.

Example others_fail_original_succeeds :
  let run := switchToNextAuth (flaky [2; 3] "timeout") (start 2 5 false 1 [1; 2; 3]) in
  fst run = Normal {| success := true; newIndex := Some 1; failedAccounts := Some [2; 3];
                      finalAttempt := Some true; reason := None |} /\
  map call (awaits (snd run)) = [SwitchAccount 2; SwitchAccount 3; SwitchAccount 1].
Proof. vm_compute. repeat split. Qed.

Example all_three_fail :
  let run := switchToNextAuth (flaky [1; 2; 3] "timeout") (start 2 5 false 1 [1; 2; 3]) in
  fst run = Thrown {| message := "All 3 available accounts failed to initialize (including final retry)." |} /\
  map call (awaits (snd run)) = [SwitchAccount 2; SwitchAccount 3; SwitchAccount 1] /\
  last (logged (snd run)) (INFO, EmptyString) =
    (ERROR, "FATAL: All 3 accounts failed! Failed accounts: [2, 3, 1]") /\
  currentAuthIndex (browserManager (snd run)) = 0 /\
  this (snd run) = {| failureCount := 2; usageCount := 5; isSystemBusy := false |}.
Proof. vm_compute. repeat split. Qed.

(** C1: candidates [0, 1], account 0 current, account 1 rejected.  The
    method takes account 0 for the current one (it logs "Starting from: #0"
    and leaves it out of the loop), but the test of line 143 reads the
    original account [0] as false: the final attempt is not made, account
    0 is never tried, and the method throws its "(including final retry)"
    error after a single activation.  With candidates [5, 1] and account 5
    current the same run tries 1 and then 5. *)
Lemma original_zero_not_retried :
  let w := start 0 0 false 0 [0; 1] in
  let run := switchToNextAuth (flaky [1] "timeout") w in
  isSystemBusy (this w) = false /\
  (1 < List.length (availableIndices w))%nat /\
  NoDup (availableIndices w) /\
  nth_error (availableIndices w) 0 = Some (currentAuthIndex (browserManager w)) /\
  map call (awaits (snd run)) = [SwitchAccount 1] /\
  ~ walksThrough (flaky [1] "timeout") (othersFrom (availableIndices w) 0 ++ [0]) w /\
  In (INFO, "   • Starting from: #0") (logged (snd run)) /\
  last (logged (snd run)) (INFO, EmptyString)
  = (ERROR, "FATAL: All 2 accounts failed! Failed accounts: [1]") /\
  fst run = Thrown {| message := "All 2 available accounts failed to initialize (including final retry)." |} /\
  map call (awaits (snd (switchToNextAuth (flaky [1; 5] "timeout")
                           (start 0 0 false 5 [5; 1]))))
  = [SwitchAccount 1; SwitchAccount 5].
Proof.
  cbv zeta. split; [reflexivity|]. split; [simpl; lia|].
  split; [repeat constructor; simpl; intuition lia|].
  split; [reflexivity|]. split; [vm_compute; reflexivity|].
  split.
  - unfold walksThrough.
    intros (new & Hnew & [(failed & winner & rest & _ & _ & _ & Hres) | (Hcalls & _)]).
    + vm_compute in Hres. discriminate Hres.
    + vm_compute in Hnew. subst new. vm_compute in Hcalls. discriminate Hcalls.
  - split; [vm_compute; tauto|]. vm_compute. repeat split.
Qed.

Lemma switchToNextAuth_original_last_witness :
  let w := start 2 5 false 1 [1; 2; 3] in
  List.length (othersFrom [1; 2; 3] 0) = 2%nat /\
  ~ In 1 (othersFrom [1; 2; 3] 0) /\
  (forall c : Z, In c [1; 2; 3] -> c = 1 \/ In c (othersFrom [1; 2; 3] 0)) /\
  walksThrough (flaky [2] "timeout") (othersFrom [1; 2; 3] 0 ++ [1]) w.
Proof.
  apply (switchToNextAuth_original_last (flaky [2] "timeout")
           (start 2 5 false 1 [1; 2; 3]) 0%nat).
  - reflexivity.
  - simpl; lia.
  - repeat constructor; simpl; intuition lia.
  - reflexivity.
  - simpl; lia.
Defined.

(** C2, counterexample: the error thrown does not carry the list of failed
    accounts.  With candidates [1, 2, 3] all rejected, the run from account
    1 fails on [2, 3, 1] and the run from account 2 on [3, 1, 2], and the
    two throw the same error; no reading of the error gives both lists. *)
Lemma thrown_error_forgets_failed_accounts :
  ~ exists carried : Error -> list Z,
      forall current : Z, In current [1; 2] ->
        let run := switchToNextAuth (flaky [1; 2; 3] "timeout")
                     (start 0 0 false current [1; 2; 3]) in
        exists e : Error,
          fst run = Thrown e /\ carried e = attempted (awaits (snd run)).
Proof.
  intros [carried H].
  destruct (H 1 (or_introl eq_refl)) as (e1 & E1 & C1).
  destruct (H 2 (or_intror (or_introl eq_refl))) as (e2 & E2 & C2).
  vm_compute in E1, E2. injection E1 as <-. injection E2 as <-.
  vm_compute in C1, C2. rewrite C1 in C2. discriminate C2.
Qed.

Lemma switchToNextAuth_all_failed_witness :
  let w := start 2 5 false 1 [1; 2; 3] in
  let w' := snd (switchToNextAuth (flaky [1; 2; 3] "timeout") w) in
  exists (new : list Suspension) (lines : list (Level * string)),
    awaits w' = awaits w ++ new /\
    fst (switchToNextAuth (flaky [1; 2; 3] "timeout") w) =
      Thrown {| message := "All " +++ JS.string_of_Z (JS.length [1; 2; 3]) +++
                           " available accounts failed to initialize (including final retry)." |} /\
    currentAuthIndex (browserManager w') = 0 /\
    logged w' =
      logged w ++ lines ++
      [(ERROR, "FATAL: All " +++ JS.string_of_Z (JS.length [1; 2; 3]) +++
               " accounts failed! Failed accounts: [" +++
               JS.join ", " (attempted new) +++ "]")] /\
    (forall p : nat,
        NoDup [1; 2; 3] -> nth_error [1; 2; 3] p = Some 1 -> 1 <> 0 ->
        attempted new = othersFrom [1; 2; 3] p ++ [1]) /\
    (~ In 1 [1; 2; 3] -> attempted new = [1; 2; 3]).
Proof.
  apply (switchToNextAuth_all_failed (flaky [1; 2; 3] "timeout")
           (start 2 5 false 1 [1; 2; 3])).
  - reflexivity.
  - simpl; lia.
  - intros new H. vm_compute in H. subst new.
    repeat constructor; discriminate.
Defined.

(** C3, counterexample: [switchToNextAuth] without candidates.  The
    emptiness test of line 52 comes before the busy test, and the method
    throws instead of returning the skip result. *)
Lemma busy_without_candidates_throws :
  let w := start 0 0 true 0 [] in
  isSystemBusy (this w) = true /\
  fst (switchToNextAuth (flaky [] "never") w) = Thrown noSources /\
  ~ skipsWithoutEffect (switchToNextAuth (flaky [] "never")) w.
Proof.
  cbv zeta. split; [reflexivity|]. split; [reflexivity|].
  intros [H _]. vm_compute in H. discriminate H.
Qed.

Lemma one_switch_at_a_time_witness :
  (* a switch is under way *)
  (availableIndices (start 0 0 true 1 [1; 2]) <> [] ->
   skipsWithoutEffect (switchToNextAuth (flaky [] "never")) (start 0 0 true 1 [1; 2])) /\
  skipsWithoutEffect (switchToSpecificAuth (flaky [] "never") 2) (start 0 0 true 1 [1; 2]) /\
  (* no switch is under way *)
  heldThroughout (switchToNextAuth (flaky [2] "timeout")) (start 2 5 false 1 [1; 2; 3]) /\
  (* a direct switch that starts while that run awaits account 2 *)
  skipsWithoutEffect (switchToSpecificAuth (flaky [2] "timeout") 3)
    (start 2 5 true 1 [1; 2; 3]).
Proof.
  split; [|split; [|split]].
  - apply (proj1 (one_switch_at_a_time (flaky [] "never") (start 0 0 true 1 [1; 2]) 2)).
    reflexivity.
  - apply (proj1 (one_switch_at_a_time (flaky [] "never") (start 0 0 true 1 [1; 2]) 2)).
    reflexivity.
  - apply (proj2 (one_switch_at_a_time (flaky [2] "timeout")
                    (start 2 5 false 1 [1; 2; 3]) 2)).
    + reflexivity.
    + left. reflexivity.
  - apply (proj2 (proj2 (one_switch_at_a_time (flaky [2] "timeout")
                           (start 2 5 false 1 [1; 2; 3]) 2)
                    eq_refl (switchToNextAuth (flaky [2] "timeout")) (or_introl eq_refl))
             {| call := SwitchAccount 2;
                meanwhile := {| failureCount := 2; usageCount := 5; isSystemBusy := true |};
                settled := Some {| message := "timeout" |} |}
             (start 2 5 true 1 [1; 2; 3]) 3).
    + vm_compute. left. reflexivity.
    + simpl. tauto.
    + reflexivity.
Defined.

Lemma handleRequestFailureAndSwitch_policy_witness :
  (* status 429 is immediate: the switch runs at the first report *)
  handleRequestFailureAndSwitch (flaky [] "never") (policy 3 [429]) {| status := 429 |} true
    (start 0 0 false 1 [1; 2])
  = match switchToNextAuth (flaky [] "never")
            (snd (recordFailure (policy 3 [429]) {| status := 429 |}
                    (start 0 0 false 1 [1; 2]))) with
    | (Normal result, w') => reportResult true result w'
    | (Thrown error, w') => switchFailed true error w'
    end /\
  (* status 500 at count 1 of 3: no switch *)
  handleRequestFailureAndSwitch (flaky [] "never") (policy 3 [429]) {| status := 500 |} true
    (start 0 0 false 1 [1; 2])
  = (Normal tt, snd (recordFailure (policy 3 [429]) {| status := 500 |}
                       (start 0 0 false 1 [1; 2]))) /\
  (* threshold 0: four reports, no switch *)
  let reports := [({| status := 500 |}, true); ({| status := 502 |}, true);
                  ({| status := 500 |}, false); ({| status := 404 |}, true)] in
  let w' := reportAll (flaky [] "never") (policy 0 [429]) reports (start 0 7 false 1 [1; 2]) in
  failureCount (this w') = 0 + 4 /\
  usageCount (this w') = 7 /\
  isSystemBusy (this w') = false /\
  browserManager w' = {| currentAuthIndex := 1; session := tt |} /\
  sent w' = [] /\
  awaits w' = [].
Proof.
  split; [|split].
  - apply (proj1 (proj2 (handleRequestFailureAndSwitch_policy (flaky [] "never")
                           (policy 3 [429]) (start 0 0 false 1 [1; 2])
                           {| status := 429 |} true))).
    reflexivity.
  - apply (proj1 (proj2 (proj2 (handleRequestFailureAndSwitch_policy (flaky [] "never")
                                  (policy 3 [429]) (start 0 0 false 1 [1; 2])
                                  {| status := 500 |} true)))).
    reflexivity.
  - apply (proj2 (proj2 (proj2 (handleRequestFailureAndSwitch_policy (flaky [] "never")
                                  (policy 0 [429]) (start 0 7 false 1 [1; 2])
                                  {| status := 500 |} true)))).
    + reflexivity.
    + repeat constructor.
Defined.

(** C5, counterexample: a callback that throws.  The switch succeeds, the
    callback throws on the message of line 246, the [catch] block calls it
    again at line 261 with the message for its own error, and the second
    error leaves the method. *)
Lemma throwing_callback_escapes :
  let callback : Callback := Some (fun _ _ => Some {| message := "callback failed" |}) in
  let run := Caller.handleRequestFailureAndSwitch (flaky [] "never") (policy 1 [])
               {| status := 500 |} callback (start 0 0 false 1 [1; 2]) in
  fst run = Thrown {| message := "callback failed" |} /\
  map call (awaits (snd run)) = [SwitchAccount 2] /\
  sent (snd run)
  = ["🔄 Target account invalid, automatically fell back to account #2.";
     "❌ Fatal error: Unknown switching error occurred: callback failed"].
Proof. vm_compute. repeat split. Qed.

Lemma handleRequestFailureAndSwitch_never_throws_witness :
  let callback : Callback := Some (fun _ _ => None) in
  let w := start 2 0 false 1 [1; 2] in
  let run := Caller.handleRequestFailureAndSwitch (flaky [1; 2] "timeout") (policy 3 [])
               {| status := 500 |} callback w in
  fst run = Normal tt /\
  sent (snd run)
  = sent w ++ ["❌ Fatal error: Unknown switching error occurred: All 2 available accounts failed to initialize (including final retry)."] /\
  this (snd run) = {| failureCount := 3; usageCount := 0; isSystemBusy := false |} /\
  browserManager (snd run) = {| currentAuthIndex := 0; session := tt |} /\
  map call (awaits (snd run)) = [SwitchAccount 2; SwitchAccount 1].
Proof.
  destruct (handleRequestFailureAndSwitch_never_throws (flaky [1; 2] "timeout")
              (policy 3 []) (start 2 0 false 1 [1; 2]) {| status := 500 |}
              (Some (fun _ _ => None)) (fun _ _ => eq_refl)) as [Hnormal Hthrown].
  destruct (Hthrown (allFailedError [1; 2]) eq_refl eq_refl) as (Hs & Ht & Hb & Ha).
  cbv zeta. split; [exact Hnormal|]. split; [exact Hs|].
  split; [rewrite Ht; reflexivity|]. split; [rewrite Hb; reflexivity|].
  rewrite Ha. reflexivity.
Defined.

(** C6, counterexample: a switch is under way.  The busy test of line
    182 comes before the membership test, and the reason returned for the
    unknown account 7 is "Switch already in progress.". *)
Lemma unknown_target_while_busy :
  let w := start 0 0 true 1 [1; 2] in
  ~ In 7 (availableIndices w) /\
  fst (switchToSpecificAuth (flaky [] "never") 7 w) = Normal skipped /\
  fst (switchToSpecificAuth (flaky [] "never") 7 w) <> Normal (invalidTarget 7).
Proof.
  cbv zeta. split; [simpl; intuition lia|]. split; [reflexivity|].
  intro H. vm_compute in H. discriminate H.
Qed.

Lemma switchToSpecificAuth_unknown_target_witness :
  let w := start 3 4 false 1 [1; 2] in
  let w' := snd (switchToSpecificAuth (flaky [] "never") 7 w) in
  (exists result : SwitchResult,
      fst (switchToSpecificAuth (flaky [] "never") 7 w) = Normal result /\
      success result = false /\
      reason result =
        Some (if isSystemBusy (this w)
              then "Switch already in progress."
              else "Switch failed: Account #" +++ JS.string_of_Z 7 +++
                   " invalid or does not exist.")) /\
  this w' = this w /\
  browserManager w' = browserManager w /\
  availableIndices w' = availableIndices w /\
  sent w' = sent w /\
  awaits w' = awaits w.
Proof.
  apply (switchToSpecificAuth_unknown_target (flaky [] "never") (start 3 4 false 1 [1; 2]) 7).
  simpl; intuition lia.
Defined.

(** C7: one candidate, threshold 1, the restart of the candidate rejected
    with "Browser launch timed out".  The report runs [switchToNextAuth],
    which fails in its single-account branch and rethrows the manager's
    error; line 250 does not find its text in that message, and
    [failureCount] stays at 1. *)
Lemma single_restart_failure_keeps_count :
  let w := start 0 0 false 1 [1] in
  let run := handleRequestFailureAndSwitch (flaky [1] "Browser launch timed out")
               (policy 1 []) {| status := 500 |} true w in
  map call (awaits (snd run)) = [LaunchOrSwitchContext 1] /\
  map rejected (awaits (snd run)) = [true] /\
  sent (snd run) = ["❌ Fatal error: Unknown switching error occurred: Browser launch timed out"] /\
  failureCount (this (snd run)) = 1.
Proof. vm_compute. repeat split. Qed.

Lemma getNextAuthIndex_selection_witness :
  (* account 3 is last of [1, 2, 3]: the next one wraps to position 0 *)
  fst (getNextAuthIndex (start 0 0 false 3 [1; 2; 3]))
  = Normal (nth_error [1; 2; 3] ((2 + 1) mod 3)) /\
  (* account 9 is not a candidate: the first one *)
  fst (getNextAuthIndex (start 0 0 false 9 [4; 5])) = Normal (Some 4) /\
  (* no candidate *)
  fst (getNextAuthIndex (start 0 0 false 9 [])) = Normal None /\
  (* a single candidate *)
  fst (getNextAuthIndex (start 0 0 false 6 [6])) = Normal (Some 6).
Proof.
  split; [|split; [|split]].
  - apply (proj1 (proj2 (proj2 (proj2
             (getNextAuthIndex_selection (start 0 0 false 3 [1; 2; 3]))))) 2%nat).
    + repeat constructor; simpl; intuition lia.
    + reflexivity.
  - apply (proj2 (proj2 (proj2 (proj2 (proj2
             (getNextAuthIndex_selection (start 0 0 false 9 [4; 5])))))) 4 [5]).
    + reflexivity.
    + simpl; intuition lia.
  - apply (proj1 (proj2 (proj2 (getNextAuthIndex_selection (start 0 0 false 9 []))))).
    reflexivity.
  - apply (proj1 (proj2 (proj2 (proj2 (proj2
             (getNextAuthIndex_selection (start 0 0 false 6 [6])))))) 6).
    reflexivity.
Defined.

(** Threshold 3, two failures counted, every account rejected: the third
    report and each of the two after it run the whole walk again. *)
Example three_reports_three_walks :
  let reports := [({| status := 500 |}, true); ({| status := 500 |}, true);
                  ({| status := 500 |}, true)] in
  let w' := reportAll (flaky [1; 2] "timeout") (policy 3 []) reports
              (start 2 0 false 1 [1; 2]) in
  failureCount (this w') = 5 /\
  map call (awaits w')
  = [SwitchAccount 2; SwitchAccount 1;
     SwitchAccount 1; SwitchAccount 2;
     SwitchAccount 1; SwitchAccount 2] /\
  List.length (sent w') = 3%nat.
Proof. vm_compute. repeat split. Qed.



(** ** Further properties of the class *)

Section Further.

Context {Session : Type}.
Variable perform : Activation -> BrowserManager Session -> Outcome * BrowserManager Session.
Variable config : Config.

Lemma incrementUsageCount_run (w : World Session) :
  incrementUsageCount w =
  (Normal (usageCount (this w) + 1),
   with_this (fun f => {| failureCount := failureCount f;
                          usageCount := usageCount f + 1;
                          isSystemBusy := isSystemBusy f |}) w).
Proof. destruct w as [[fc uc bz] b av lg st aw]. reflexivity. Qed.

(** X1.  [incrementUsageCount] returns the count it has just stored, and
    [n] calls raise [usageCount] by [n] and leave everything else as it
    was: the failure count, the busy flag, the collaborators, the log. *)
Theorem incrementUsageCount_counts (n : nat) (w : World Session) :
  fst (incrementUsageCount w)
  = Normal (usageCount (this (snd (incrementUsageCount w)))) /\
  useTimes n w
  = with_this (fun f => {| failureCount := failureCount f;
                           usageCount := usageCount f + Z.of_nat n;
                           isSystemBusy := isSystemBusy f |}) w.
Proof.
  split; [rewrite incrementUsageCount_run; reflexivity|].
  revert w; induction n as [|n IH]; intro w.
  - destruct w as [[fc uc bz] b av lg st aw]. unfold with_this.
    cbn [useTimes this browserManager availableIndices logged sent awaits
         failureCount usageCount isSystemBusy].
    do 2 f_equal. lia.
  - cbn [useTimes]. rewrite incrementUsageCount_run. cbn [snd]. rewrite IH.
    destruct w as [[fc uc bz] b av lg st aw]. unfold with_this.
    cbn [this browserManager availableIndices logged sent awaits
         failureCount usageCount isSystemBusy].
    do 2 f_equal. lia.
Qed.

(** X2.  Counting uses from zero (a new object, or after a successful
    switch), [shouldSwitchByUsage] answers true after [n] uses exactly when
    [switchOnUses] is positive and [n] has reached it; asking changes
    nothing. *)
Theorem shouldSwitchByUsage_due (n : nat) (w : World Session) :
  usageCount (this w) = 0 ->
  snd (shouldSwitchByUsage config (useTimes n w)) = useTimes n w /\
  (fst (shouldSwitchByUsage config (useTimes n w)) = Normal true <->
   0 < switchOnUses config <= Z.of_nat n) /\
  (fst (shouldSwitchByUsage config (useTimes n w)) = Normal false <->
   ~ 0 < switchOnUses config <= Z.of_nat n).
Proof.
  intro Hzero. split; [reflexivity|].
  assert (E : fst (shouldSwitchByUsage config (useTimes n w))
              = Normal ((switchOnUses config >? 0)
                        && (Z.of_nat n >=? switchOnUses config))).
  { unfold shouldSwitchByUsage, gets. cbn [fst]. do 3 f_equal.
    rewrite (proj2 (incrementUsageCount_counts n w)).
    cbn [with_this this usageCount]. rewrite Hzero. reflexivity. }
  rewrite E.
  assert (Hb : (switchOnUses config >? 0) && (Z.of_nat n >=? switchOnUses config) = true
               <-> 0 < switchOnUses config <= Z.of_nat n).
  { rewrite andb_true_iff, Z.gtb_gt, Z.geb_ge. lia. }
  destruct ((switchOnUses config >? 0) && (Z.of_nat n >=? switchOnUses config)).
  - split; split.
    + intros _. now apply Hb.
    + reflexivity.
    + discriminate.
    + intro H. exfalso. apply H. now apply Hb.
  - split; split.
    + discriminate.
    + intro H. apply Hb in H. discriminate H.
    + intros _ H. apply Hb in H. discriminate H.
    + reflexivity.
Qed.

(** X3.  After a switch that returns success, by [switchToNextAuth] or by
    [switchToSpecificAuth], [shouldSwitchByUsage] answers false: a
    rotation by usage is not due again at once, whatever [switchOnUses]. *)
Theorem no_rotation_due_after_success (w : World Session) (targetIndex : Z)
        (operation : M Session SwitchResult) (result : SwitchResult) :
  operation = switchToNextAuth perform \/
  operation = switchToSpecificAuth perform targetIndex ->
  fst (operation w) = Normal result ->
  success result = true ->
  fst (shouldSwitchByUsage config (snd (operation w))) = Normal false.
Proof.
  intros Hop Hres Hsucc.
  assert (Hc : countersFollowSuccess operation w).
  { destruct Hop as [-> | ->];
      [apply switchToNextAuth_counters | apply switchToSpecificAuth_counters]. }
  unfold countersFollowSuccess in Hc. rewrite Hres, Hsucc in Hc.
  destruct Hc as [_ Hu].
  unfold shouldSwitchByUsage, gets. cbn [fst]. rewrite Hu. f_equal.
  destruct (Z.gtb_spec (switchOnUses config) 0) as [Hpos|Hneg]; [|reflexivity].
  cbn [andb]. destruct (Z.geb_spec 0 (switchOnUses config)); [lia|reflexivity].
Qed.

(** X4.  With exactly one candidate and no switch under way,
    [switchToNextAuth] restarts that candidate in place, whatever the
    current index: one [launchOrSwitchContext] call and no [switchAccount].
    If the call resolves, the result names the candidate, without
    [failedAccounts] or [finalAttempt], and the counters are [0]; if it is
    rejected, the manager's error is thrown as it is and the counters are
    untouched.  Either way the manager is left as the call left it: the
    current index is not set to [0] here. *)
Theorem switchToNextAuth_single_account (w : World Session) (x : Z) :
  availableIndices w = [x] ->
  isSystemBusy (this w) = false ->
  let w' := snd (switchToNextAuth perform w) in
  exists s : Suspension,
    awaits w' = awaits w ++ [s] /\
    call s = LaunchOrSwitchContext x /\
    perform (LaunchOrSwitchContext x) (browserManager w) = (settled s, browserManager w') /\
    match settled s with
    | None =>
        fst (switchToNextAuth perform w)
        = Normal {| success := true; newIndex := Some x; failedAccounts := None;
                    finalAttempt := None; reason := None |} /\
        this w' = {| failureCount := 0; usageCount := 0; isSystemBusy := false |}
    | Some e =>
        fst (switchToNextAuth perform w) = Thrown e /\
        this w' = this w
    end.
Proof.
  intros Hav Hb w'. subst w'.
  destruct (switchToNextAuth_single perform w x Hav Hb) as [lines E]. rewrite E.
  destruct (perform (LaunchOrSwitchContext x) (browserManager w)) as [[e|] b'];
    cbn [fst snd awaits browserManager this];
    eexists; (split; [reflexivity|]); cbn [call settled];
    repeat split.
  now apply idle_idle.
Qed.

Lemma arrayIncludes_present (l : list Z) (x : Z) :
  In x l -> JS.arrayIncludes l x = true.
Proof.
  intro H. unfold JS.arrayIncludes. apply existsb_exists.
  exists x. split; [exact H | apply Z.eqb_refl].
Qed.

(** X5.  For a target that is a candidate, with no switch under way,
    [switchToSpecificAuth] makes one [switchAccount] call on the target and
    nothing else.  If it resolves, the result names the target and the
    counters are [0]; if it is rejected, the manager's error is thrown as it
    is, with the counters untouched.  No other candidate is tried and the
    current index is never written by the method. *)
Theorem switchToSpecificAuth_known_target (w : World Session) (targetIndex : Z) :
  In targetIndex (availableIndices w) ->
  isSystemBusy (this w) = false ->
  let w' := snd (switchToSpecificAuth perform targetIndex w) in
  exists s : Suspension,
    awaits w' = awaits w ++ [s] /\
    call s = SwitchAccount targetIndex /\
    perform (SwitchAccount targetIndex) (browserManager w) = (settled s, browserManager w') /\
    match settled s with
    | None =>
        fst (switchToSpecificAuth perform targetIndex w)
        = Normal {| success := true; newIndex := Some targetIndex;
                    failedAccounts := None; finalAttempt := None; reason := None |} /\
        this w' = {| failureCount := 0; usageCount := 0; isSystemBusy := false |}
    | Some e =>
        fst (switchToSpecificAuth perform targetIndex w) = Thrown e /\
        this w' = this w
    end.
Proof.
  intros Hin Hb w'. subst w'.
  destruct (switchToSpecificAuth_valid perform targetIndex w Hb
              (arrayIncludes_present _ _ Hin)) as [lines E]. rewrite E.
  destruct (perform (SwitchAccount targetIndex) (browserManager w)) as [[e|] b'];
    cbn [fst snd awaits browserManager this];
    eexists; (split; [reflexivity|]); cbn [call settled];
    repeat split.
  now apply idle_idle.
Qed.

Lemma getNextAuthIndex_run (w : World Session) :
  fst (getNextAuthIndex w) =
  if JS.length (availableIndices w) =? 0 then Normal None
  else if JS.indexOf (availableIndices w) (currentAuthIndex (browserManager w)) =? -1
       then Normal (Some (JS.item (availableIndices w) 0))
       else Normal (Some (JS.item (availableIndices w)
                            (Z.rem (JS.indexOf (availableIndices w)
                                      (currentAuthIndex (browserManager w)) + 1)
                               (JS.length (availableIndices w))))).
Proof.
  unfold getNextAuthIndex, gets, getCurrentAuthIndex. unfold bind at 1.
  destruct (JS.length (availableIndices w) =? 0); [reflexivity|].
  unfold bind at 1. unfold gets.
  destruct (JS.indexOf (availableIndices w) (currentAuthIndex (browserManager w)) =? -1);
    reflexivity.
Qed.

Lemma item_In (l : list Z) (k : Z) :
  0 <= k < JS.length l -> In (JS.item l k) l.
Proof.
  intros [Hk Hlt]. unfold JS.item, JS.length in *. apply nth_In. lia.
Qed.

(** X6.  With at least one candidate, [getNextAuthIndex] returns a
    candidate, whether or not the list repeats identifiers; and among at
    least two distinct candidates that include the current index, the one
    returned is not the current one. *)
Theorem getNextAuthIndex_is_candidate (w : World Session) :
  availableIndices w <> [] ->
  exists x : Z,
    fst (getNextAuthIndex w) = Normal (Some x) /\
    In x (availableIndices w) /\
    (NoDup (availableIndices w) ->
     (2 <= List.length (availableIndices w))%nat ->
     In (currentAuthIndex (browserManager w)) (availableIndices w) ->
     x <> currentAuthIndex (browserManager w)).
Proof.
  intro Hne. rewrite getNextAuthIndex_run.
  set (available := availableIndices w) in *.
  set (current := currentAuthIndex (browserManager w)).
  assert (Hlen : 0 < JS.length available).
  { unfold JS.length. destruct available; [congruence | simpl List.length; lia]. }
  replace (JS.length available =? 0) with false by (symmetry; apply Z.eqb_neq; lia).
  destruct (in_dec Z.eq_dec current available) as [Hin|Hout].
  - destruct (indexOf_present available current Hin) as (i & Ei & Hi & _).
    rewrite Ei.
    replace (Z.of_nat i =? -1) with false by (symmetry; apply Z.eqb_neq; lia).
    eexists. split; [reflexivity|]. split.
    + apply item_In. apply rem_range; lia.
    + intros ND Htwo _ Heq.
      assert (Hlt : (i < List.length available)%nat) by (apply nth_error_Some; congruence).
      assert (Hm : ((i + 1) mod List.length available < List.length available)%nat)
        by (apply Nat.mod_upper_bound; lia).
      assert (Hitem : JS.item available
                        (Z.rem (Z.of_nat i + 1) (JS.length available))
                      = nth ((i + 1) mod List.length available) available 0).
      { unfold JS.item, JS.length. f_equal.
        rewrite Z.rem_mod_nonneg by lia.
        replace (Z.of_nat i + 1) with (Z.of_nat (i + 1)) by lia.
        rewrite <- Nat2Z.inj_mod. apply Nat2Z.id. }
      rewrite Hitem in Heq.
      assert (Hsame : nth_error available ((i + 1) mod List.length available)
                      = nth_error available i).
      { rewrite (nth_error_nth' available 0 Hm), Heq. now symmetry. }
      apply (proj1 (NoDup_nth_error available) ND) in Hsame; [|exact Hm].
      destruct (Nat.eq_dec (i + 1) (List.length available)) as [Elast|Nlast].
      * rewrite Elast, Nat.Div0.mod_same in Hsame. lia.
      * rewrite Nat.mod_small in Hsame by lia. lia.
  - rewrite (indexOf_absent available current Hout).
    cbn [Z.eqb Pos.eqb]. eexists. split; [reflexivity|]. split.
    + apply item_In. lia.
    + intros _ _ Hin. contradiction.
Qed.

(** *** The walk, whatever the candidate list *)

Lemma visited_In (available : list Z) (startIndex : Z) (n : nat) (i : Z) :
  0 <= startIndex -> 0 <= i -> 0 < JS.length available ->
  Forall (fun c => In c available) (visited available startIndex n i).
Proof.
  intros Hs Hi Hlen. revert i Hi; induction n as [|n IH]; intros i Hi; simpl.
  - constructor.
  - constructor.
    + apply item_In. apply rem_range; lia.
    + apply IH. lia.
Qed.

(** The accounts of a walk are candidates, and there are at most as many
    as candidates. *)
Lemma candidates_bounded (available : list Z) (current : Z) :
  available <> [] ->
  (List.length (loopCandidates available current ++ lastCandidates available current)
   <= List.length available)%nat /\
  Forall (fun c => In c available)
         (loopCandidates available current ++ lastCandidates available current).
Proof.
  intro Hne.
  assert (Hlen : 0 < JS.length available).
  { unfold JS.length. destruct available; [congruence | simpl List.length; lia]. }
  unfold loopCandidates, lastCandidates.
  destruct (indexOf_range available current) as [E | Hr].
  - rewrite E. cbn [Z.eqb Pos.eqb negb]. cbv iota.
    unfold finalCandidates. cbn [andb]. rewrite app_nil_r. split.
    + rewrite visited_length. unfold JS.length. lia.
    + apply visited_In; lia.
  - replace (JS.indexOf available current =? -1) with false
      by (symmetry; apply Z.eqb_neq; lia).
    cbn [negb]. cbv iota. split.
    + rewrite length_app, visited_length. unfold finalCandidates, JS.length in *.
      destruct (true && _); cbn [List.length]; lia.
    + apply Forall_app. split; [apply visited_In; lia|].
      unfold finalCandidates. destruct (true && _); repeat constructor.
      now apply item_In.
Qed.

Lemma walkAwaits_attempted (f : Fields) (failures : list (Z * Error)) (winner : option Z) :
  attempted (walkAwaits f failures winner)
  = map fst failures ++ match winner with
                        | Some c => [c]
                        | None => []
                        end.
Proof.
  unfold attempted. rewrite walkAwaits_calls, map_map. cbn [target]. apply map_id.
Qed.

(** The accounts a walk tried are the head of the list it was given. *)
Lemma attemptInSequence_prefix (xs : list Z) (b : BrowserManager Session) (f : Fields) :
  match attemptInSequence perform xs b with
  | (failures, winner, _) =>
      exists rest, xs = attempted (walkAwaits f failures winner) ++ rest
  end.
Proof.
  pose proof (attemptInSequence_shape perform xs b) as H.
  destruct (attemptInSequence perform xs b) as [[failures [c|]] b'];
    rewrite walkAwaits_attempted.
  - destruct H as [rest ->]. exists rest. now rewrite <- app_assoc.
  - exists []. now rewrite !app_nil_r.
Qed.

(** X7.  In any state, [switchToNextAuth] calls the browser manager at
    most once per candidate in the list, and only for accounts of the
    list. *)
Theorem switchToNextAuth_attempts_bounded (w : World Session) :
  exists new : list Suspension,
    awaits (snd (switchToNextAuth perform w)) = awaits w ++ new /\
    (List.length new <= List.length (availableIndices w))%nat /\
    Forall (fun s => In (target (call s)) (availableIndices w)) new.
Proof.
  destruct (availableIndices w) as [|x [|y l]] eqn:Hav.
  - rewrite (switchToNextAuth_empty perform w Hav). exists [].
    cbn [snd]. rewrite app_nil_r. repeat split; [simpl; lia | constructor].
  - destruct (isSystemBusy (this w)) eqn:Hb.
    + destruct (switchToNextAuth_busy perform w) as [line E]; [congruence | exact Hb |].
      rewrite E. exists []. cbn [snd with_logged awaits]. rewrite app_nil_r.
      repeat split; [simpl; lia | constructor].
    + destruct (switchToNextAuth_single perform w x Hav Hb) as [lines E]. rewrite E.
      destruct (perform (LaunchOrSwitchContext x) (browserManager w)) as [[e|] b'];
        cbn [snd awaits]; eexists; (split; [reflexivity|]);
        (split; [simpl; lia|]); repeat constructor; cbn; tauto.
  - destruct (isSystemBusy (this w)) eqn:Hb.
    + destruct (switchToNextAuth_busy perform w) as [line E]; [congruence | exact Hb |].
      rewrite E. exists []. cbn [snd with_logged awaits]. rewrite app_nil_r.
      repeat split; [simpl; lia | constructor].
    + assert (Hlen : (2 <= List.length (availableIndices w))%nat)
        by (rewrite Hav; simpl; lia).
      destruct (switchToNextAuth_multi perform w Hlen Hb) as [lines E]. cbv zeta in E.
      assert (Hne : availableIndices w <> []) by congruence.
      destruct (candidates_bounded (availableIndices w)
                  (currentAuthIndex (browserManager w)) Hne) as [Hbound Hin].
      pose proof (attemptInSequence_prefix
                    (loopCandidates (availableIndices w) (currentAuthIndex (browserManager w))
                     ++ lastCandidates (availableIndices w)
                          (currentAuthIndex (browserManager w)))
                    (browserManager w) (busy (this w))) as Hpre.
      rewrite E. rewrite <- Hav.
      destruct (attemptInSequence perform _ (browserManager w)) as [[failures winner] b'].
      destruct Hpre as [rest Hpre].
      exists (walkAwaits (busy (this w)) failures winner).
      assert (Hatt : (List.length (walkAwaits (busy (this w)) failures winner)
                      <= List.length (availableIndices w))%nat /\
                     Forall (fun c => In c (availableIndices w))
                            (attempted (walkAwaits (busy (this w)) failures winner))).
      { rewrite Hpre in Hbound, Hin. rewrite length_app in Hbound.
        unfold attempted in Hbound at 1. rewrite !length_map in Hbound.
        apply Forall_app in Hin. split; [lia | tauto]. }
      destruct Hatt as [Hl Hf].
      split; [destruct winner; reflexivity|]. split; [exact Hl|].
      unfold attempted in Hf. rewrite !Forall_map in Hf. exact Hf.
Qed.

Lemma tries_all_without_current (w : World Session) :
  isSystemBusy (this w) = false ->
  (2 <= List.length (availableIndices w))%nat ->
  ~ In (currentAuthIndex (browserManager w)) (availableIndices w) ->
  triesInOrder perform (availableIndices w) w.
Proof.
  intros Hb Hlen Hout.
  destruct (switchToNextAuth_multi perform w Hlen Hb) as [lines E]. cbv zeta in E.
  destruct (candidates_absent _ _ Hout) as [Hloop Hlast].
  pose proof (attemptInSequence_shape perform
                (loopCandidates (availableIndices w) (currentAuthIndex (browserManager w))
                 ++ lastCandidates (availableIndices w) (currentAuthIndex (browserManager w)))
                (browserManager w)) as Hshape.
  unfold triesInOrder. rewrite E; clear E.
  rewrite Hloop, Hlast, app_nil_r in *.
  destruct (attemptInSequence perform (availableIndices w) (browserManager w))
    as [[failures [c|]] b']; cbn [fst snd awaits browserManager currentAuthIndex].
  - destruct Hshape as [rest Hs].
    eexists; split; [reflexivity|]. left.
    exists (map fst failures), c, rest. repeat split.
    + exact Hs.
    + apply walkAwaits_calls.
    + rewrite walkAwaits_rejected, length_map. reflexivity.
    + do 2 f_equal.
      replace (List.length failures <? List.length (availableIndices w))%nat with true;
        [reflexivity|].
      symmetry. apply Nat.ltb_lt.
      apply (f_equal (@List.length Z)) in Hs.
      rewrite length_app, length_map in Hs. cbn [List.length] in Hs. lia.
  - eexists; split; [reflexivity|]. right. repeat split.
    + rewrite walkAwaits_calls, app_nil_r, <- Hshape. reflexivity.
    + rewrite walkAwaits_rejected, app_nil_r, Hshape, length_map. reflexivity.
Qed.

(** X8.  With several candidates, no switch under way and a current index
    that is not a candidate (none was ever activated, or the list changed),
    [switchToNextAuth] tries every candidate in the order of the list and
    makes no final attempt: the first account that resolves is returned
    with the accounts rejected before it; if all are rejected the current
    index is set to [0] and the all-failed error is thrown. *)
Theorem switchToNextAuth_without_current (w : World Session) :
  isSystemBusy (this w) = false ->
  (2 <= List.length (availableIndices w))%nat ->
  ~ In (currentAuthIndex (browserManager w)) (availableIndices w) ->
  triesInOrder perform (availableIndices w) w.
Proof. apply tries_all_without_current. Qed.

(** X9.  After a run of [switchToNextAuth] over several candidates that
    ended with every account rejected, a second run at once, with [0] not
    a candidate, has no original account to spare: it tries every
    candidate again in the order of the list, the one that was current
    before the first run included. *)
Theorem retry_after_total_failure (w : World Session) (e : Error) :
  isSystemBusy (this w) = false ->
  (2 <= List.length (availableIndices w))%nat ->
  ~ In 0 (availableIndices w) ->
  fst (switchToNextAuth perform w) = Thrown e ->
  triesInOrder perform (availableIndices w) (snd (switchToNextAuth perform w)).
Proof.
  intros Hb Hlen Hzero Hthrown.
  destruct (switchToNextAuth_multi perform w Hlen Hb) as [lines E]. cbv zeta in E.
  rewrite E in Hthrown |- *.
  destruct (attemptInSequence perform _ (browserManager w)) as [[failures [c|]] b'];
    cbn [fst snd] in *; [discriminate|].
  match goal with
  | |- triesInOrder perform _ ?w2 =>
      change (triesInOrder perform (availableIndices w2) w2)
  end.
  apply tries_all_without_current.
  - cbn. reflexivity.
  - exact Hlen.
  - exact Hzero.
Qed.

Lemma othersFrom_NoDup (available : list Z) (p : nat) (x : Z) :
  NoDup available -> nth_error available p = Some x ->
  NoDup (othersFrom available p ++ [x]).
Proof.
  intros ND Hp. unfold othersFrom.
  rewrite (othersFrom_split available p x Hp) in ND.
  eapply Permutation_NoDup; [|exact ND].
  etransitivity; [symmetry; apply Permutation_middle|].
  etransitivity; [|apply Permutation_cons_append].
  apply perm_skip, Permutation_app_comm.
Qed.

Lemma candidates_NoDup (available : list Z) (current : Z) :
  NoDup available ->
  NoDup (loopCandidates available current ++ lastCandidates available current).
Proof.
  intro ND.
  destruct (in_dec Z.eq_dec current available) as [Hin|Hout].
  - destruct (indexOf_present available current Hin) as (i & _ & Hi & _).
    destruct (candidates_member available i current ND Hi) as [-> ->].
    pose proof (othersFrom_NoDup available i current ND Hi) as H.
    destruct (current =? 0); [|exact H].
    rewrite app_nil_r. now apply NoDup_app_remove_r in H.
  - destruct (candidates_absent available current Hout) as [-> ->].
    now rewrite app_nil_r.
Qed.

(** X10.  When [switchToNextAuth] returns success, the account it names
    is a candidate; and if the candidates are distinct, the accounts it
    lists as failed are distinct candidates too, and the account it names
    is not one of them. *)
Theorem switchToNextAuth_success_names_candidate (w : World Session)
        (result : SwitchResult) :
  fst (switchToNextAuth perform w) = Normal result ->
  success result = true ->
  exists c : Z,
    newIndex result = Some c /\
    In c (availableIndices w) /\
    (NoDup (availableIndices w) ->
     forall failed : list Z,
       failedAccounts result = Some failed ->
       ~ In c failed /\ NoDup failed /\ incl failed (availableIndices w)).
Proof.
  intros Hres Hsucc.
  destruct (availableIndices w) as [|x [|y l]] eqn:Hav.
  - rewrite (switchToNextAuth_empty perform w Hav) in Hres. discriminate.
  - destruct (isSystemBusy (this w)) eqn:Hb.
    + destruct (switchToNextAuth_busy perform w) as [line E]; [congruence | exact Hb |].
      rewrite E in Hres. injection Hres as <-. discriminate.
    + destruct (switchToNextAuth_single perform w x Hav Hb) as [lines E].
      rewrite E in Hres.
      destruct (perform (LaunchOrSwitchContext x) (browserManager w)) as [[e|] b'];
        [discriminate|].
      injection Hres as <-. exists x. cbn. repeat split; [tauto | discriminate ..].
  - destruct (isSystemBusy (this w)) eqn:Hb.
    + destruct (switchToNextAuth_busy perform w) as [line E]; [congruence | exact Hb |].
      rewrite E in Hres. injection Hres as <-. discriminate.
    + assert (Hlen : (2 <= List.length (availableIndices w))%nat)
        by (rewrite Hav; simpl; lia).
      assert (Hne : availableIndices w <> []) by congruence.
      destruct (switchToNextAuth_multi perform w Hlen Hb) as [lines E]. cbv zeta in E.
      destruct (candidates_bounded (availableIndices w)
                  (currentAuthIndex (browserManager w)) Hne) as [_ Hin].
      pose proof (candidates_NoDup (availableIndices w)
                    (currentAuthIndex (browserManager w))) as Hnd.
      pose proof (attemptInSequence_shape perform
                    (loopCandidates (availableIndices w) (currentAuthIndex (browserManager w))
                     ++ lastCandidates (availableIndices w)
                          (currentAuthIndex (browserManager w)))
                    (browserManager w)) as Hshape.
      rewrite E in Hres. rewrite <- Hav.
      destruct (attemptInSequence perform _ (browserManager w)) as [[failures [c|]] b'];
        [|discriminate].
      injection Hres as <-. destruct Hshape as [rest Hs].
      rewrite Hs in Hin, Hnd.
      exists c. cbn [newIndex failedAccounts]. split; [reflexivity|].
      apply Forall_app in Hin. destruct Hin as [Hfailed Hc].
      split; [now inversion Hc|].
      intros ND failed [= <-]. specialize (Hnd ND). repeat split.
      * apply NoDup_remove_2 in Hnd. rewrite in_app_iff in Hnd. tauto.
      * now apply NoDup_app_remove_r in Hnd.
      * intros a Ha. rewrite Forall_forall in Hfailed. now apply Hfailed.
Qed.

Lemma attemptInSequence_winner (xs : list Z) (b : BrowserManager Session) :
  match attemptInSequence perform xs b with
  | (_, Some c, b') => exists b0, perform (SwitchAccount c) b0 = (None, b')
  | (_, None, _) => True
  end.
Proof.
  revert b; induction xs as [|x xs IH]; intro b; simpl; [exact I|].
  destruct (perform (SwitchAccount x) b) as [[e|] b1] eqn:E.
  - specialize (IH b1).
    now destruct (attemptInSequence perform xs b1) as [[failures [c|]] b2].
  - now exists b.
Qed.

(** X11.  If the browser manager makes an account the current one
    whenever its activation resolves, then after any switch that returns
    success, by [switchToNextAuth] or by [switchToSpecificAuth], the
    current index is the account the result names. *)
Theorem current_index_follows_success
        (w : World Session) (targetIndex : Z)
        (operation : M Session SwitchResult) (result : SwitchResult) :
  (forall (a : Activation) (b b' : BrowserManager Session),
      perform a b = (None, b') -> currentAuthIndex b' = target a) ->
  operation = switchToNextAuth perform \/
  operation = switchToSpecificAuth perform targetIndex ->
  fst (operation w) = Normal result ->
  success result = true ->
  newIndex result = Some (currentAuthIndex (browserManager (snd (operation w)))).
Proof.
  intros Hset [-> | ->] Hres Hsucc.
  - destruct (availableIndices w) as [|x [|y l]] eqn:Hav.
    + rewrite (switchToNextAuth_empty perform w Hav) in Hres. discriminate.
    + destruct (isSystemBusy (this w)) eqn:Hb.
      * destruct (switchToNextAuth_busy perform w) as [line E]; [congruence | exact Hb |].
        rewrite E in Hres. injection Hres as <-. discriminate.
      * destruct (switchToNextAuth_single perform w x Hav Hb) as [lines E].
        rewrite E in Hres |- *.
        destruct (perform (LaunchOrSwitchContext x) (browserManager w))
          as [[e|] b'] eqn:P; [discriminate|].
        injection Hres as <-. cbn. f_equal. symmetry. exact (Hset _ _ _ P).
    + destruct (isSystemBusy (this w)) eqn:Hb.
      * destruct (switchToNextAuth_busy perform w) as [line E]; [congruence | exact Hb |].
        rewrite E in Hres. injection Hres as <-. discriminate.
      * assert (Hlen : (2 <= List.length (availableIndices w))%nat)
          by (rewrite Hav; simpl; lia).
        destruct (switchToNextAuth_multi perform w Hlen Hb) as [lines E]. cbv zeta in E.
        pose proof (attemptInSequence_winner
                      (loopCandidates (availableIndices w)
                         (currentAuthIndex (browserManager w))
                       ++ lastCandidates (availableIndices w)
                            (currentAuthIndex (browserManager w)))
                      (browserManager w)) as Hwin.
        rewrite E in Hres |- *.
        destruct (attemptInSequence perform _ (browserManager w))
          as [[failures [c|]] b']; [|discriminate].
        injection Hres as <-. destruct Hwin as [b0 P].
        cbn. f_equal. symmetry. exact (Hset _ _ _ P).
  - destruct (isSystemBusy (this w)) eqn:Hb.
    + destruct (switchToSpecificAuth_busy perform targetIndex w Hb) as [line E].
      rewrite E in Hres. injection Hres as <-. discriminate.
    + destruct (JS.arrayIncludes (availableIndices w) targetIndex) eqn:Hin.
      * destruct (switchToSpecificAuth_valid perform targetIndex w Hb Hin) as [lines E].
        rewrite E in Hres |- *.
        destruct (perform (SwitchAccount targetIndex) (browserManager w))
          as [[e|] b'] eqn:P; [discriminate|].
        injection Hres as <-. cbn. f_equal. symmetry. exact (Hset _ _ _ P).
      * rewrite (switchToSpecificAuth_invalid perform targetIndex w Hb Hin) in Hres.
        injection Hres as <-. discriminate.
Qed.

(** X12.  With a candidate at all and no switch under way, the first
    account [switchToNextAuth] activates is the one [getNextAuthIndex]
    returns in the same state: the restarted account when there is one
    candidate, the first account of the walk when there are several. *)
Theorem first_attempt_is_next (w : World Session) :
  availableIndices w <> [] ->
  isSystemBusy (this w) = false ->
  exists (s : Suspension) (later : list Suspension),
    awaits (snd (switchToNextAuth perform w)) = awaits w ++ s :: later /\
    fst (getNextAuthIndex w) = Normal (Some (target (call s))).
Proof.
  intros Hne Hb. rewrite getNextAuthIndex_run.
  destruct (availableIndices w) as [|x [|y l]] eqn:Hav; [congruence| |].
  - destruct (switchToNextAuth_single perform w x Hav Hb) as [lines E]. rewrite E.
    change (JS.length [x] =? 0) with false. cbv iota.
    assert (Hnext : (if JS.indexOf [x] (currentAuthIndex (browserManager w)) =? -1
                     then Normal (Some (JS.item [x] 0))
                     else Normal (Some (JS.item [x]
                            (Z.rem (JS.indexOf [x] (currentAuthIndex (browserManager w)) + 1)
                               (JS.length [x])))))
                    = Normal (Some x)).
    { unfold JS.indexOf. cbn [JS.indexOfFrom].
      destruct (x =? currentAuthIndex (browserManager w)); reflexivity. }
    rewrite Hnext.
    destruct (perform (LaunchOrSwitchContext x) (browserManager w)) as [[e|] b'];
      cbn [snd awaits]; do 2 eexists; split; reflexivity.
  - assert (Hlen : (2 <= List.length (availableIndices w))%nat)
      by (rewrite Hav; simpl; lia).
    destruct (switchToNextAuth_multi perform w Hlen Hb) as [lines E]. cbv zeta in E.
    rewrite E; clear E. rewrite <- Hav.
    set (available := availableIndices w) in *.
    set (current := currentAuthIndex (browserManager w)).
    assert (Hlenz : 2 <= JS.length available) by (unfold JS.length; lia).
    replace (JS.length available =? 0) with false by (symmetry; apply Z.eqb_neq; lia).
    assert (Hhead : exists tail,
               loopCandidates available current ++ lastCandidates available current
               = (if JS.indexOf available current =? -1
                  then JS.item available 0
                  else JS.item available
                         (Z.rem (JS.indexOf available current + 1) (JS.length available)))
                 :: tail).
    { unfold loopCandidates.
      destruct (JS.indexOf available current =? -1); cbn [negb]; cbv iota.
      - destruct (Z.to_nat (JS.length available)) as [|k] eqn:Ek; [lia|].
        cbn [visited app]. rewrite Z.add_0_l, Z.rem_0_l by lia. eexists; reflexivity.
      - destruct (Z.to_nat (JS.length available - 1)) as [|k] eqn:Ek; [lia|].
        cbn [visited app]. eexists; reflexivity. }
    destruct Hhead as [tail Hhead]. rewrite Hhead. cbn [attemptInSequence].
    set (first := if JS.indexOf available current =? -1
                  then JS.item available 0
                  else JS.item available
                         (Z.rem (JS.indexOf available current + 1) (JS.length available))).
    assert (Hnext : (if JS.indexOf available current =? -1
                     then Normal (Some (JS.item available 0))
                     else Normal (Some (JS.item available
                            (Z.rem (JS.indexOf available current + 1)
                               (JS.length available)))))
                    = @Normal (option Z) (Some first)).
    { subst first. now destruct (JS.indexOf available current =? -1). }
    rewrite Hnext.
    destruct (perform (SwitchAccount first) (browserManager w)) as [[e|] b1].
    + destruct (attemptInSequence perform tail b1) as [[failures [c|]] b2];
        cbn [snd awaits]; unfold walkAwaits; cbn [map app fst snd];
        do 2 eexists; split; reflexivity.
    + cbn [snd awaits]. unfold walkAwaits. cbn [map app].
      do 2 eexists; split; reflexivity.
Qed.

(** *** Reports *)

(** X13.  The calls a failure report makes to the caller's callback.  A
    report that does not run the switch makes none, and without a callback
    none are made.  A report that runs the switch calls the callback with
    the message for the switch's result or error; if that call returns it
    is the only one.  If the call for a returned result throws, the [catch]
    block calls the callback a second time, with the message for the
    callback's own error.  The report ends with an error exactly when a
    call made from the [catch] block throws. *)
Theorem one_message_per_switch
        (w : World Session) (errorDetails : ErrorDetails) (sendErrorCallback : Callback) :
  let w1 := snd (recordFailure config errorDetails w) in
  let run := Caller.handleRequestFailureAndSwitch perform config errorDetails
               sendErrorCallback w in
  (shouldSwitch config errorDetails (failureCount (this w)) = false ->
   fst run = Normal tt /\ sent (snd run) = sent w) /\
  (shouldSwitch config errorDetails (failureCount (this w)) = true ->
   match switchToNextAuth perform w1 with
   | (Normal result, w2) =>
       let m1 := resultMessage result (currentAuthIndex (browserManager w2)) in
       match sendErrorCallback with
       | None => fst run = Normal tt /\ sent (snd run) = sent w
       | Some f =>
           match f (sent w) m1 with
           | None => fst run = Normal tt /\ sent (snd run) = sent w ++ [m1]
           | Some e1 =>
               let m2 := userMessage e1 (currentAuthIndex (browserManager w2)) in
               sent (snd run) = sent w ++ [m1; m2] /\
               fst run = match f (sent w ++ [m1]) m2 with
                         | None => Normal tt
                         | Some e2 => Thrown e2
                         end
           end
       end
   | (Thrown error, w2) =>
       let m := userMessage error (currentAuthIndex (browserManager w2)) in
       match sendErrorCallback with
       | None => fst run = Normal tt /\ sent (snd run) = sent w
       | Some f =>
           sent (snd run) = sent w ++ [m] /\
           fst run = match f (sent w) m with
                     | None => Normal tt
                     | Some e => Thrown e
                     end
       end
   end).
Proof.
  intros w1 run. subst run.
  rewrite (Caller_handleRequestFailureAndSwitch_run perform config).
  destruct (recordFailure_frame config errorDetails w) as (_ & _ & _ & Hsent0 & _).
  fold w1 in Hsent0 |- *.
  destruct (shouldSwitch config errorDetails (failureCount (this w))).
  - split; [discriminate|]. intros _.
    rewrite (Caller_switchAndReport_run perform).
    destruct (switchToNextAuth_summary perform w1) as (_ & Hsent & _).
    destruct (switchToNextAuth perform w1) as [[result|error] w2]; cbn [fst snd] in *.
    + destruct (Caller_reportResult_run sendErrorCallback result w2) as (lines & R).
      rewrite R. cbv zeta.
      destruct sendErrorCallback as [f|].
      * rewrite Hsent, Hsent0.
        destruct (f (sent w) (resultMessage result (currentAuthIndex (browserManager w2))))
          as [e1|].
        -- match goal with
           | |- context [Caller.switchFailed (Some f) e1 ?w3] =>
               destruct (Caller_switchFailed_run (Some f) e1 w3) as (lines' & R');
               rewrite R'
           end.
           cbn [fst snd sent with_sent with_logged browserManager].
           rewrite ?Hsent, ?Hsent0, <- ?app_assoc. split; reflexivity.
        -- cbn [fst snd sent with_sent]. rewrite ?Hsent, ?Hsent0. split; reflexivity.
      * cbn [fst snd sent with_logged]. rewrite ?Hsent, ?Hsent0. split; reflexivity.
    + destruct (Caller_switchFailed_run sendErrorCallback error w2) as (lines & R).
      rewrite R. cbv zeta.
      destruct sendErrorCallback as [f|]; cbn [fst snd sent with_sent];
        rewrite ?Hsent, ?Hsent0; split; reflexivity.
  - split; [|discriminate]. intros _. cbn [fst snd]. split; [reflexivity | exact Hsent0].
Qed.


(** X15.  Reports without an immediate status that keep the count of
    failures below the threshold run no switch: each raises [failureCount]
    by one and nothing else happens, no activation and no message.  The
    report that brings the count up to a positive threshold is due to
    switch. *)
Theorem reports_below_threshold (w : World Session) (reports : list (ErrorDetails * bool)) :
  Forall (fun r => JS.arrayIncludes (immediateSwitchStatusCodes config)
                     (status (fst r)) = false) reports ->
  failureCount (this w) + Z.of_nat (List.length reports) < failureThreshold config ->
  let w' := reportAll perform config reports w in
  (failureCount (this w') = failureCount (this w) + Z.of_nat (List.length reports) /\
   usageCount (this w') = usageCount (this w) /\
   isSystemBusy (this w') = isSystemBusy (this w) /\
   browserManager w' = browserManager w /\
   sent w' = sent w /\
   awaits w' = awaits w) /\
  (forall errorDetails : ErrorDetails,
      0 < failureThreshold config ->
      failureCount (this w') + 1 = failureThreshold config ->
      shouldSwitch config errorDetails (failureCount (this w')) = true).
Proof.
  intros Hall Hbelow w'.
  assert (Hframe :
            failureCount (this w') = failureCount (this w) + Z.of_nat (List.length reports) /\
            usageCount (this w') = usageCount (this w) /\
            isSystemBusy (this w') = isSystemBusy (this w) /\
            browserManager w' = browserManager w /\
            sent w' = sent w /\
            awaits w' = awaits w).
  { subst w'. revert w Hbelow.
    induction reports as [|[d cb] rest IH]; intros w Hbelow.
    - cbn. repeat split. lia.
    - inversion Hall as [|r l Hd Hrest]; subst. cbn [fst] in Hd.
      cbn [reportAll List.length] in *.
      rewrite handleRequestFailureAndSwitch_run.
      unfold shouldSwitch. rewrite Hd.
      replace (failureCount (this w) + 1 >=? failureThreshold config) with false
        by (symmetry;
            destruct (Z.geb_spec (failureCount (this w) + 1) (failureThreshold config));
            [lia | reflexivity]).
      rewrite andb_false_r. cbn [orb snd].
      destruct (recordFailure_frame config d w) as (Hthis & Hbm & _ & Hsent & Haw).
      destruct (IH Hrest (snd (recordFailure config d w)))
        as (H1 & H2 & H3 & H4 & H5 & H6).
      + rewrite Hthis. cbn [counted failureCount]. lia.
      + rewrite H1, H2, H3, H4, H5, H6, Hthis, Hbm, Hsent, Haw.
        cbn [counted failureCount usageCount isSystemBusy].
        repeat split. lia. }
  split; [exact Hframe|].
  intros errorDetails Hpos Hreach. unfold shouldSwitch.
  destruct Hframe as (Hcount & _).
  replace (failureThreshold config >? 0) with true
    by (symmetry; apply Z.gtb_gt; lia).
  replace (failureCount (this w') + 1 >=? failureThreshold config) with true
    by (symmetry; apply Z.geb_ge; lia).
  apply orb_true_r.
Qed.


(** *** The message for a total failure *)









(** X18.  Every result [switchToNextAuth] and [switchToSpecificAuth]
    return has one of two shapes: a success names the new account and has
    no reason; a result without success has a reason and names no account,
    no failed accounts and no final attempt. *)
Theorem switch_result_shape
        (w : World Session) (targetIndex : Z)
        (operation : M Session SwitchResult) (result : SwitchResult) :
  operation = switchToNextAuth perform \/
  operation = switchToSpecificAuth perform targetIndex ->
  fst (operation w) = Normal result ->
  if success result
  then (exists c : Z, newIndex result = Some c) /\ reason result = None
  else (exists text : string, reason result = Some text) /\
       newIndex result = None /\ failedAccounts result = None /\
       finalAttempt result = None.
Proof.
  intros [-> | ->] Hres.
  - destruct (availableIndices w) as [|x [|y l]] eqn:Hav.
    + rewrite (switchToNextAuth_empty perform w Hav) in Hres. discriminate.
    + destruct (isSystemBusy (this w)) eqn:Hb.
      * destruct (switchToNextAuth_busy perform w) as [line E]; [congruence | exact Hb |].
        rewrite E in Hres. injection Hres as <-. cbn. repeat split. eexists; reflexivity.
      * destruct (switchToNextAuth_single perform w x Hav Hb) as [lines E].
        rewrite E in Hres.
        destruct (perform (LaunchOrSwitchContext x) (browserManager w)) as [[e|] b'];
          [discriminate|].
        injection Hres as <-. cbn. split; [eexists|]; reflexivity.
    + destruct (isSystemBusy (this w)) eqn:Hb.
      * destruct (switchToNextAuth_busy perform w) as [line E]; [congruence | exact Hb |].
        rewrite E in Hres. injection Hres as <-. cbn. repeat split. eexists; reflexivity.
      * assert (Hlen : (2 <= List.length (availableIndices w))%nat)
          by (rewrite Hav; simpl; lia).
        destruct (switchToNextAuth_multi perform w Hlen Hb) as [lines E]. cbv zeta in E.
        rewrite E in Hres.
        destruct (attemptInSequence perform _ (browserManager w))
          as [[failures [c|]] b']; [|discriminate].
        injection Hres as <-. cbn. split; [eexists|]; reflexivity.
  - destruct (isSystemBusy (this w)) eqn:Hb.
    + destruct (switchToSpecificAuth_busy perform targetIndex w Hb) as [line E].
      rewrite E in Hres. injection Hres as <-. cbn. repeat split. eexists; reflexivity.
    + destruct (JS.arrayIncludes (availableIndices w) targetIndex) eqn:Hin.
      * destruct (switchToSpecificAuth_valid perform targetIndex w Hb Hin) as [lines E].
        rewrite E in Hres.
        destruct (perform (SwitchAccount targetIndex) (browserManager w)) as [[e|] b'];
          [discriminate|].
        injection Hres as <-. cbn. split; [eexists|]; reflexivity.
      * rewrite (switchToSpecificAuth_invalid perform targetIndex w Hb Hin) in Hres.
        injection Hres as <-. cbn. repeat split. eexists; reflexivity.
Qed.

End Further.

(** ** Further runs on concrete collaborators *)

Lemma shouldSwitchByUsage_due_witness :
  let w := constructor {| currentAuthIndex := 1; session := tt |} [1; 2] in
  let config := {| failureThreshold := 3; immediateSwitchStatusCodes := [];
                   switchOnUses := 2 |} in
  snd (shouldSwitchByUsage config (useTimes 2 w)) = useTimes 2 w /\
  (fst (shouldSwitchByUsage config (useTimes 2 w)) = Normal true <->
   0 < switchOnUses config <= Z.of_nat 2) /\
  (fst (shouldSwitchByUsage config (useTimes 2 w)) = Normal false <->
   ~ 0 < switchOnUses config <= Z.of_nat 2).
Proof.
  apply (shouldSwitchByUsage_due
           {| failureThreshold := 3; immediateSwitchStatusCodes := []; switchOnUses := 2 |}
           2 (constructor {| currentAuthIndex := 1; session := tt |} [1; 2])).
  reflexivity.
Defined.

Lemma no_rotation_due_after_success_witness :
  fst (shouldSwitchByUsage {| failureThreshold := 3; immediateSwitchStatusCodes := [];
                              switchOnUses := 2 |}
         (snd (switchToNextAuth (flaky [2] "timeout") (start 2 5 false 1 [1; 2; 3]))))
  = Normal false.
Proof.
  apply (no_rotation_due_after_success (flaky [2] "timeout")
           {| failureThreshold := 3; immediateSwitchStatusCodes := []; switchOnUses := 2 |}
           (start 2 5 false 1 [1; 2; 3]) 3
           (switchToNextAuth (flaky [2] "timeout"))
           {| success := true; newIndex := Some 3; failedAccounts := Some [2];
              finalAttempt := None; reason := None |}).
  - left. reflexivity.
  - reflexivity.
  - reflexivity.
Defined.

Lemma switchToNextAuth_single_account_witness :
  let w := start 2 5 false 9 [4] in
  let w' := snd (switchToNextAuth (flaky [4] "Browser launch timed out") w) in
  exists s : Suspension,
    awaits w' = awaits w ++ [s] /\
    call s = LaunchOrSwitchContext 4 /\
    flaky [4] "Browser launch timed out" (LaunchOrSwitchContext 4) (browserManager w)
    = (settled s, browserManager w') /\
    match settled s with
    | None =>
        fst (switchToNextAuth (flaky [4] "Browser launch timed out") w)
        = Normal {| success := true; newIndex := Some 4; failedAccounts := None;
                    finalAttempt := None; reason := None |} /\
        this w' = {| failureCount := 0; usageCount := 0; isSystemBusy := false |}
    | Some e =>
        fst (switchToNextAuth (flaky [4] "Browser launch timed out") w) = Thrown e /\
        this w' = this w
    end.
Proof.
  apply (switchToNextAuth_single_account (flaky [4] "Browser launch timed out")
           (start 2 5 false 9 [4]) 4).
  - reflexivity.
  - reflexivity.
Defined.

Lemma switchToSpecificAuth_known_target_witness :
  let w := start 2 5 false 1 [1; 2; 3] in
  let w' := snd (switchToSpecificAuth (flaky [] "never") 3 w) in
  exists s : Suspension,
    awaits w' = awaits w ++ [s] /\
    call s = SwitchAccount 3 /\
    flaky [] "never" (SwitchAccount 3) (browserManager w) = (settled s, browserManager w') /\
    match settled s with
    | None =>
        fst (switchToSpecificAuth (flaky [] "never") 3 w)
        = Normal {| success := true; newIndex := Some 3; failedAccounts := None;
                    finalAttempt := None; reason := None |} /\
        this w' = {| failureCount := 0; usageCount := 0; isSystemBusy := false |}
    | Some e =>
        fst (switchToSpecificAuth (flaky [] "never") 3 w) = Thrown e /\
        this w' = this w
    end.
Proof.
  apply (switchToSpecificAuth_known_target (flaky [] "never")
           (start 2 5 false 1 [1; 2; 3]) 3).
  - simpl; tauto.
  - reflexivity.
Defined.

Lemma getNextAuthIndex_is_candidate_witness :
  let w := start 0 0 false 3 [1; 2; 3] in
  exists x : Z,
    fst (getNextAuthIndex w) = Normal (Some x) /\
    In x (availableIndices w) /\
    (NoDup (availableIndices w) ->
     (2 <= List.length (availableIndices w))%nat ->
     In (currentAuthIndex (browserManager w)) (availableIndices w) ->
     x <> currentAuthIndex (browserManager w)).
Proof.
  apply (getNextAuthIndex_is_candidate (start 0 0 false 3 [1; 2; 3])).
  discriminate.
Defined.

Lemma switchToNextAuth_without_current_witness :
  triesInOrder (flaky [1] "timeout") [1; 2; 3]
    (constructor {| currentAuthIndex := 0; session := tt |} [1; 2; 3]).
Proof.
  apply (switchToNextAuth_without_current (flaky [1] "timeout")
           (constructor {| currentAuthIndex := 0; session := tt |} [1; 2; 3])).
  - reflexivity.
  - simpl; lia.
  - simpl; intuition lia.
Defined.

Lemma retry_after_total_failure_witness :
  triesInOrder (flaky [1; 2; 3] "timeout") [1; 2; 3]
    (snd (switchToNextAuth (flaky [1; 2; 3] "timeout") (start 2 5 false 1 [1; 2; 3]))).
Proof.
  apply (retry_after_total_failure (flaky [1; 2; 3] "timeout")
           (start 2 5 false 1 [1; 2; 3]) (allFailedError [1; 2; 3])).
  - reflexivity.
  - simpl; lia.
  - simpl; intuition lia.
  - reflexivity.
Defined.

Lemma switchToNextAuth_success_names_candidate_witness :
  exists c : Z,
    Some 1 = Some c /\
    In c [1; 2; 3] /\
    (NoDup [1; 2; 3] ->
     forall failed : list Z,
       Some [2; 3] = Some failed ->
       ~ In c failed /\ NoDup failed /\ incl failed [1; 2; 3]).
Proof.
  apply (switchToNextAuth_success_names_candidate (flaky [2; 3] "timeout")
           (start 2 5 false 1 [1; 2; 3])
           {| success := true; newIndex := Some 1; failedAccounts := Some [2; 3];
              finalAttempt := Some true; reason := None |}).
  - reflexivity.
  - reflexivity.
Defined.

Lemma current_index_follows_success_witness :
  Some 3
  = Some (currentAuthIndex
            (browserManager
               (snd (switchToNextAuth (flaky [2] "timeout") (start 2 5 false 1 [1; 2; 3]))))).
Proof.
  apply (current_index_follows_success (flaky [2] "timeout")
           (start 2 5 false 1 [1; 2; 3]) 3
           (switchToNextAuth (flaky [2] "timeout"))
           {| success := true; newIndex := Some 3; failedAccounts := Some [2];
              finalAttempt := None; reason := None |}).
  - intros a b b' H. unfold flaky in H.
    destruct (JS.arrayIncludes [2] (target a)); [discriminate H|].
    injection H as <-. reflexivity.
  - left. reflexivity.
  - reflexivity.
  - reflexivity.
Defined.

Lemma first_attempt_is_next_witness :
  let w := start 2 5 false 3 [1; 2; 3] in
  exists (s : Suspension) (later : list Suspension),
    awaits (snd (switchToNextAuth (flaky [1] "timeout") w)) = awaits w ++ s :: later /\
    fst (getNextAuthIndex w) = Normal (Some (target (call s))).
Proof.
  apply (first_attempt_is_next (flaky [1] "timeout") (start 2 5 false 3 [1; 2; 3])).
  - discriminate.
  - reflexivity.
Defined.


Lemma one_message_per_switch_witness :
  let failed := {| message := "callback failed" |} in
  let once : Callback :=
    Some (fun earlier _ => match earlier with
                           | [] => Some failed
                           | _ :: _ => None
                           end) in
  let run := Caller.handleRequestFailureAndSwitch (flaky [] "never") (policy 1 [])
               {| status := 500 |} once (start 0 0 false 1 [1; 2]) in
  sent (snd run)
  = [] ++ ["🔄 Target account invalid, automatically fell back to account #2.";
           "❌ Fatal error: Unknown switching error occurred: callback failed"] /\
  fst run = Normal tt.
Proof.
  exact (proj2 (one_message_per_switch (flaky [] "never") (policy 1 [])
                  (start 0 0 false 1 [1; 2]) {| status := 500 |}
                  (Some (fun earlier _ => match earlier with
                                          | [] => Some {| message := "callback failed" |}
                                          | _ :: _ => None
                                          end)))
               eq_refl).
Defined.

Lemma reports_below_threshold_witness :
  let w := constructor {| currentAuthIndex := 1; session := tt |} [1; 2] in
  let reports := [({| status := 500 |}, true); ({| status := 502 |}, false)] in
  let w' := reportAll (flaky [] "never") (policy 3 [429]) reports w in
  (failureCount (this w') = failureCount (this w) + Z.of_nat (List.length reports) /\
   usageCount (this w') = usageCount (this w) /\
   isSystemBusy (this w') = isSystemBusy (this w) /\
   browserManager w' = browserManager w /\
   sent w' = sent w /\
   awaits w' = awaits w) /\
  (forall errorDetails : ErrorDetails,
      0 < failureThreshold (policy 3 [429]) ->
      failureCount (this w') + 1 = failureThreshold (policy 3 [429]) ->
      shouldSwitch (policy 3 [429]) errorDetails (failureCount (this w')) = true).
Proof.
  apply (reports_below_threshold (flaky [] "never") (policy 3 [429])
           (constructor {| currentAuthIndex := 1; session := tt |} [1; 2])
           [({| status := 500 |}, true); ({| status := 502 |}, false)]).
  - repeat constructor.
  - simpl; lia.
Defined.



Lemma switch_result_shape_witness :
  (exists text : string, reason (invalidTarget 7) = Some text) /\
  newIndex (invalidTarget 7) = None /\ failedAccounts (invalidTarget 7) = None /\
  finalAttempt (invalidTarget 7) = None.
Proof.
  apply (switch_result_shape (flaky [] "never") (start 0 0 false 1 [1; 2]) 7
           (switchToSpecificAuth (flaky [] "never") 7) (invalidTarget 7)).
  - right. reflexivity.
  - reflexivity.
Defined.
